(** * OUSD allocation simulator (pages/index.tsx): a shallow embedding

    The simulator is JavaScript: every amount, rate and fraction is an IEEE-754
    binary64 number, a missing property reads as [undefined], arithmetic on
    [undefined] gives [NaN], and destructuring [undefined] throws a
    [TypeError].  The embedding keeps all of that:
    - numbers are Rocq's primitive floats (binary64, specified by
      [FloatAxioms] against [SpecFloat]);
    - an optional property is an [option], [None] standing for [undefined];
    - objects are property lists in [Object.keys] order;
    - code that can throw returns a [result]. *)

From Stdlib Require Import ZArith List String Bool Lia Floats Permutation.
Import ListNotations.

Local Open Scope string_scope.

(** ** JavaScript numbers *)

Module Num.

Definition number := float.

(** [!x] for a number: [NaN], [+0] and [-0] are the falsy numbers. *)
Definition falsy (x : number) : bool := is_nan x || is_zero x.

(** [x || 0] for a number [x]. *)
Definition or0 (x : number) : number := if falsy x then 0%float else x.

(** ToNumber of a possibly missing number: [undefined] becomes [NaN]. *)
Definition to_number (v : option number) : number :=
  match v with
  | Some x => x
  | None => nan
  end.

(** [v || 0] where [v] is a number or [undefined]. *)
Definition or0u (v : option number) : number :=
  match v with
  | Some x => or0 x
  | None => 0%float
  end.

End Num.

Import Num.

(** ** Objects, [undefined] and exceptions *)

(** A plain object with string keys, as the list of its own properties in
    [Object.keys] order.  Reading a property takes its first entry; writing
    replaces the entry in place or appends a new one, so keys stay unique.
    (The keys here are token symbols, strategy identifiers and quote keys,
    never array indices, so a new property does go last.) *)
Module Obj.

Definition t (V : Type) := list (string * V).

Section Ops.
Context {V : Type}.

Fixpoint get (o : t V) (k : string) : option V :=
  match o with
  | [] => None
  | (k', v) :: o' => if String.eqb k' k then Some v else get o' k
  end.

Fixpoint set (o : t V) (k : string) (v : V) : t V :=
  match o with
  | [] => [(k, v)]
  | (k', v') :: o' =>
      if String.eqb k' k then (k', v) :: o' else (k', v') :: set o' k v
  end.

Fixpoint delete (o : t V) (k : string) : t V :=
  match o with
  | [] => []
  | (k', v) :: o' =>
      if String.eqb k' k then delete o' k else (k', v) :: delete o' k
  end.

Definition keys (o : t V) : list string := map fst o.

End Ops.

(** A property whose value may itself be [undefined]. *)
Definition get_u {V : Type} (o : t (option V)) (k : string) : option V :=
  match get o k with
  | Some v => v
  | None => None
  end.

End Obj.

(** The only exception this code can raise is the [TypeError] of reading a
    property of, or destructuring, [undefined]. *)
Inductive error : Type := TypeError.

Inductive result (A : Type) : Type :=
| Return (a : A)
| Throw (e : error).

Arguments Return {A} a.
Arguments Throw {A} e.

Definition bind {A B : Type} (r : result A) (k : A -> result B) : result B :=
  match r with
  | Return a => k a
  | Throw e => Throw e
  end.

Notation "x <- r ;; k" := (bind r (fun x => k))
  (at level 61, r at next level, right associativity).
Notation "' p <- r ;; k" := (bind r (fun x => match x with p => k end))
  (at level 61, p pattern, r at next level, right associativity).

(** [xs.map(f)] where [f] may throw: the first exception aborts the map. *)
Fixpoint mapM {A B : Type} (f : A -> result B) (xs : list A) : result (list B) :=
  match xs with
  | [] => Return []
  | x :: xs' => y <- f x ;; ys <- mapM f xs' ;; Return (y :: ys)
  end.

(** [xs.reduce(f, init)] and [for] loops over a list, where the body may throw. *)
Fixpoint foldM {A B : Type} (f : B -> A -> result B) (xs : list A) (acc : B)
  : result B :=
  match xs with
  | [] => Return acc
  | x :: xs' => acc' <- f acc x ;; foldM f xs' acc'
  end.

(** Reading a property of a value that must be an object. *)
Definition expect {A : Type} (v : option A) : result A :=
  match v with
  | Some a => Return a
  | None => Throw TypeError
  end.

(** ** Venue quotes: [processAAVE], [processCompound], [processDefiLlama] *)

(** A normalized quote [{ base, reward }]. *)
Module Quote.
Record t : Type := { base : number; reward : number }.
End Quote.

(** The scalar JSON values a raw rate field can hold. *)
Inductive scalar : Type :=
| JNull
| JBool (b : bool)
| JNum (x : number)
| JStr (s : string).

(** [{...a, ...b}]: the properties of [b] written over a copy of [a]. *)
Definition spread {V : Type} (a b : Obj.t V) : Obj.t V :=
  fold_left (fun acc kv => Obj.set acc (fst kv) (snd kv)) b a.

Definition merge {V : Type} (data : list (Obj.t V)) : Obj.t V :=
  fold_left (fun acc item => spread acc item) data [].

Definition aaveTokens : Obj.t string :=
  [ ("ADAI", "0x028171bca77440897b824ca71d1c56cac55b68a3");
    ("AUSDC", "0xbcca60bb61934080951369a648fb03df4f96263c");
    ("AUSDT", "0x3ed3b47dd13ec9a98b44e6204a523e766b225811") ].

Definition compoundTokens : Obj.t string :=
  [ ("cDAI", "0x5d3a536e4d6dbd6114cc1ead35777bab948e3643");
    ("cUSDC", "0x39aa39c021dfbae8fac545936693ac917d5e7563");
    ("cUSDT", "0xf650c3d88d12db855b8bf7d11be6c55a4e07dcc9") ].

Definition defiLlama : Obj.t string :=
  [ ("convex3pool", "7394f1bc-840a-4ff0-9e87-5e0ef932943a");
    ("convexLusd3Crv", "b61ef013-6391-4cdd-b057-b344ab852088");
    ("convexOusd3Crv", "9e038028-8f56-449f-8410-64683f0c086b");
    ("morphoAaveDAI", "b8bcdf8e-96ed-40ca-a7aa-aa048b9874e5");
    ("morphoAaveUSDC", "325ad2d6-70b1-48d7-a557-c2c99a036f87");
    ("morphoAaveUSDT", "1343a280-7812-4bc3-8f98-d1c37e11d271");
    ("morphoCompoundDAI", "1e6a12f5-687c-4ce6-8416-af38f17954ea");
    ("morphoCompoundUSDC", "b718e8ee-c749-4152-9f3d-e3f9ff2da564");
    ("morphoCompoundUSDT", "6303c3d4-4b56-49ff-9be0-83d4bcdd2574") ].

(** [xs.includes(s)] for a list of strings. *)
Definition includes (xs : list string) (s : string) : bool :=
  existsb (String.eqb s) xs.

(** The raw responses, as far as the normalizers read them.  An element of
    a JSON array may be [null] ([None] below), which the code cannot
    destructure; any other element that is not an object reads as one
    without fields. *)
Module Aave.
Record reserve : Type :=
  { symbol : option string;
    liquidityRate : option scalar;
    aIncentivesAPY : option scalar }.
Record response : Type := { reserves : option (list (option reserve)) }.
End Aave.

Module Compound.
Record rate : Type := { value : option scalar }.
Record ctoken : Type :=
  { symbol : option string;
    supply_rate : option rate;
    comp_supply_apy : option rate }.
Record response : Type := { cToken : option (list (option ctoken)) }.
End Compound.

Module Llama.
Record point : Type := { apyBase : option scalar; apyReward : option scalar }.
Record response : Type := { data : option (list (option point)) }.
End Llama.

Section Normalizers.

(** ToNumber on a string (the StringNumericLiteral grammar) is kept
    abstract; everything else of [Number(v)] is written out. *)
Variable string_to_number : string -> number.

Local Open Scope float_scope.

Definition Number (v : option scalar) : number :=
  match v with
  | None => nan
  | Some JNull => 0
  | Some (JBool b) => if b then 1 else 0
  | Some (JNum x) => x
  | Some (JStr s) => string_to_number s
  end.

Definition truthy (v : option scalar) : bool :=
  match v with
  | None => false
  | Some JNull => false
  | Some (JBool b) => b
  | Some (JNum x) => negb (falsy x)
  | Some (JStr s) => negb (String.eqb s EmptyString)
  end.

(** [v || 0] *)
Definition or_zero (v : option scalar) : option scalar :=
  if truthy v then v else Some (JNum 0).

(** A destructuring default [{ f = 0 }]: used only when [f] is [undefined]. *)
Definition default_zero (v : option scalar) : option scalar :=
  match v with
  | None => Some (JNum 0)
  | Some _ => v
  end.

Definition processAAVE (resp : Aave.response) : result (Obj.t Quote.t) :=
  let aTokens := Obj.keys aaveTokens in
  reserves <- expect (Aave.reserves resp) ;;
  foldM
    (fun acc item =>
       (* the callback destructures the reserve in its parameter list *)
       r <- expect item ;;
       Return
         match Aave.symbol r with
         | Some symbol =>
             if includes aTokens symbol then
               Obj.set acc symbol
                 {| Quote.base := Number (Aave.liquidityRate r);
                    Quote.reward := Number (or_zero (Aave.aIncentivesAPY r)) |}
             else acc
         | None => acc
         end)
    reserves [].

Definition processCompound (resp : Compound.response) : result (Obj.t Quote.t) :=
  let cTokens := Obj.keys compoundTokens in
  cToken <- expect (Compound.cToken resp) ;;
  foldM
    (fun acc item =>
       (* the callback destructures the cToken in its parameter list *)
       c <- expect item ;;
       match Compound.symbol c with
       | Some symbol =>
           if includes cTokens symbol then
             supply_rate <- expect (Compound.supply_rate c) ;;
             comp_supply_apy <- expect (Compound.comp_supply_apy c) ;;
             Return
               (Obj.set acc symbol
                  {| Quote.base := Number (Compound.value supply_rate);
                     Quote.reward := Number (Compound.value comp_supply_apy) / 100 |})
           else Return acc
       | None => Return acc
       end)
    cToken [].

Definition processDefiLlama (pool : string) (resp : Llama.response)
  : result (Obj.t Quote.t) :=
  data <- expect (Llama.data resp) ;;
  (* [data.pop()] is [undefined] on an empty array and may be [null] *)
  p <- expect (last data None) ;;
  let apyBase := default_zero (Llama.apyBase p) in
  let apyReward := default_zero (Llama.apyReward p) in
  Return
    [ (pool, {| Quote.base := Number apyBase / 100;
                Quote.reward := Number (or_zero apyReward) / 100 |}) ].

(** [fetchAPYs] once the responses have arrived: the DefiLlama responses
    come in the order of [Object.keys(defiLlama)]. *)
Definition fetchAPYs (aave : Aave.response) (compound : Compound.response)
    (llama : list Llama.response) : result (Obj.t Quote.t) :=
  a <- processAAVE aave ;;
  c <- processCompound compound ;;
  l <- mapM (fun pr => processDefiLlama (fst pr) (snd pr))
         (combine (Obj.keys defiLlama) llama) ;;
  Return (merge [a; c; merge l]).

End Normalizers.

(** ** Holdings: [processStrategies] and [fetchOUSDDetails] *)

(** One strategy of the analytics response. *)
Module Info.
Record t : Type :=
  { name : option string;
    holdings : option (Obj.t number) }.
End Info.

Definition snapshot : Type := Obj.t Info.t.

Definition stables : list string := ["DAI"; "USDT"; "USDC"].

(** What [fetchOUSDDetails] resolves to. *)
Module Details.
Record t : Type :=
  { totalHoldings : Obj.t number;
    ousdStrategies : snapshot;
    totalStables : number;
    holdingsSummary : Obj.t (option number) }.
End Details.

Section Holdings.

Local Open Scope float_scope.

(** The body of the [forEach]:
    [if (!acc[token]) acc[token] = 0; acc[token] += holdings[token]].
    [acc[token]] is read as an own property of the accumulator, which is
    what the source reads for a token that is not named like a member of
    [Object.prototype]. *)
Definition add_holding (holdings : Obj.t number) (acc : Obj.t number)
    (token : string) : Obj.t number :=
  let acc1 :=
    match Obj.get acc token with
    | Some x => if falsy x then Obj.set acc token 0 else acc
    | None => Obj.set acc token 0
    end in
  Obj.set acc1 token
    (to_number (Obj.get acc1 token) + to_number (Obj.get holdings token)).

Definition processStrategies (data : snapshot) : result (Obj.t number) :=
  foldM
    (fun acc key =>
       holdings <- expect (match Obj.get data key with
                           | Some info => Info.holdings info
                           | None => None
                           end) ;;
       Return (fold_left (add_holding holdings) (Obj.keys holdings) acc))
    (Obj.keys data) [].

(** [fetchOUSDDetails] once the strategies have been fetched (the OUSD
    supply it also fetches is not read by the simulation). *)
Definition fetchOUSDDetails (fetched : snapshot) : result Details.t :=
  let ousdStrategies := Obj.delete fetched "vault_holding" in
  totalHoldings <- processStrategies ousdStrategies ;;
  Return
    {| Details.totalHoldings := totalHoldings;
       Details.ousdStrategies := ousdStrategies;
       Details.totalStables :=
         fold_left (fun acc key => acc + or0u (Obj.get totalHoldings key))
           stables 0;
       Details.holdingsSummary :=
         fold_left
           (fun acc token => Obj.set acc token (Obj.get totalHoldings token))
           stables [] |}.

End Holdings.

(** ** The allocation matrix and the strategies catalog *)

Definition allocations : Type := Obj.t (Obj.t number).

Definition strategyIds : list string :=
  [ "aavestrat_holding"; "compstrat_holding"; "threepoolstrat_holding";
    "lusd_metastrat"; "ousd_metastrat"; "morpho_aave_strat"; "morpho_strat" ].

(** The initial state of [allocations]: every cell 0. *)
Definition initialAllocations : allocations :=
  map (fun token => (token, map (fun s => (s, 0%float)) strategyIds))
    ["DAI"; "USDC"; "USDT"].

(** [useState(2.94)]: the literal denotes the nearest binary64 number. *)
Definition initialBoostMultiplier : number := 0x1.7851eb851eb85p+1%float.

(** [onChangeAllocation]: the updater given to [setAllocations], applied to
    the previous state.  Spreading an [undefined] row copies nothing. *)
Definition onChangeAllocation (token strategy : string) (percent : number)
    (prev : allocations) : allocations :=
  Obj.set prev token
    (Obj.set (match Obj.get prev token with
              | Some row => row
              | None => []
              end)
       strategy percent).

(** The [token] of a catalog entry: one symbol or an array of symbols. *)
Inductive scope : Type :=
| Single (token : string)
| Basket (tokens : list string).

Module Entry.
Record t : Type :=
  { strategyId : string;
    token : scope;
    apy : string }.
End Entry.

Definition strategies : list Entry.t :=
  let e := Entry.Build_t in
  let three := Basket ["DAI"; "USDC"; "USDT"] in
  [ e "aavestrat_holding" (Single "DAI") "ADAI";
    e "aavestrat_holding" (Single "USDC") "AUSDC";
    e "aavestrat_holding" (Single "USDT") "AUSDT";
    e "compstrat_holding" (Single "DAI") "cUSDT";
    e "compstrat_holding" (Single "USDC") "cUSDT";
    e "compstrat_holding" (Single "USDT") "cUSDT";
    e "threepoolstrat_holding" three "convex3pool";
    e "lusd_metastrat" three "convexLusd3Crv";
    e "ousd_metastrat" three "convexOusd3Crv";
    e "morpho_aave_strat" (Single "DAI") "morphoAaveDAI";
    e "morpho_aave_strat" (Single "USDC") "morphoAaveUSDC";
    e "morpho_aave_strat" (Single "USDT") "morphoAaveUSDT";
    e "morpho_strat" (Single "DAI") "morphoCompoundDAI";
    e "morpho_strat" (Single "USDC") "morphoCompoundUSDC";
    e "morpho_strat" (Single "USDT") "morphoCompoundUSDT" ].

(** ** The projection: baseline seeding, [outcome] and [calculatedAPY] *)

Module Row.
Record t : Type :=
  { name : option string;
    total : option number;
    allocation : number;
    allocationAmount : number;
    base : number;
    reward : number;
    strategy : number;
    boosted : number;
    weighted : number;
    token : scope }.
End Row.

Module Data.
Record t : Type :=
  { outcome : list (option Row.t);
    calculatedAPY : number;
    totalStables : number;
    holdingsSummary : Obj.t (option number);
    totalHoldings : Obj.t number;
    ousdStrategies : snapshot;
    apys : Obj.t Quote.t }.
End Data.

Section Projection.

Local Open Scope float_scope.

Variable allocs : allocations.
Variable boostMultiplier : number.
Variable details : Details.t.
Variable apys : Obj.t Quote.t.

Local Abbreviation totalHoldings := (Details.totalHoldings details).
Local Abbreviation totalStables := (Details.totalStables details).
Local Abbreviation holdingsSummary := (Details.holdingsSummary details).
Local Abbreviation ousdStrategies := (Details.ousdStrategies details).

(** [const { DAI, USDC, USDT } = s?.holdings] throws when the strategy or
    its holdings are missing. *)
Definition holdings_of (strategyId : string) : result (Obj.t number) :=
  expect (match Obj.get ousdStrategies strategyId with
          | Some info => Info.holdings info
          | None => None
          end).

(** The matrix given to [setAllocations]: every cell is the strategy's
    holding of the token divided by the token's total. *)
Definition baseline : result allocations :=
  hs <- mapM (fun s => h <- holdings_of s ;; Return (s, h)) strategyIds ;;
  Return
    (map (fun token =>
            (token,
             map (fun sh =>
                    (fst sh,
                     to_number (Obj.get (snd sh) token)
                     / to_number (Obj.get totalHoldings token)))
               hs))
       ["DAI"; "USDC"; "USDT"]).

(** [allocations[token][strategyId] * totalHoldings[token] / totalStables] *)
Definition share (strategyId token : string) : result number :=
  row <- expect (Obj.get allocs token) ;;
  Return (to_number (Obj.get row strategyId)
          * to_number (Obj.get totalHoldings token)
          / totalStables).

(** The [allocation] and [total] of a row. *)
Definition allocation_total (strategyId : string) (token : scope)
  : result (number * option number) :=
  match token with
  | Basket tokens =>
      '(allocation, total) <-
        foldM
          (fun at_ currentToken =>
             s <- share strategyId currentToken ;;
             Return (fst at_ + s,
                     snd at_ + to_number (Obj.get_u holdingsSummary currentToken)))
          tokens (0, 0) ;;
      Return (allocation, Some total)
  | Single token =>
      allocation <- share strategyId token ;;
      (* ({ total } = holdingsSummary[token]): a number has no [total]
         property, and destructuring [undefined] throws *)
      _ <- expect (Obj.get_u holdingsSummary token) ;;
      Return (allocation, None)
  end.

(** The callback of [strategies.map]. *)
Definition outcome_entry (e : Entry.t) : result (option Row.t) :=
  match Obj.get ousdStrategies (Entry.strategyId e), Obj.get apys (Entry.apy e) with
  | Some info, Some q =>
      '(allocation, total) <- allocation_total (Entry.strategyId e) (Entry.token e) ;;
      let base := Quote.base q in
      let reward := Quote.reward q in
      let strategy := base + reward in
      let boosted := strategy * boostMultiplier in
      let weighted := allocation * boosted in
      Return (Some
        {| Row.name := Info.name info;
           Row.total := total;
           Row.allocation := allocation;
           Row.allocationAmount := allocation * totalStables;
           Row.base := base;
           Row.reward := reward;
           Row.strategy := strategy;
           Row.boosted := boosted;
           Row.weighted := weighted;
           Row.token := Entry.token e |})
  | _, _ => Return None
  end.

Definition outcome_of (catalog : list Entry.t) : result (list (option Row.t)) :=
  mapM outcome_entry catalog.

(** [item?.weighted || 0] *)
Definition weighted_or0 (item : option Row.t) : number :=
  match item with
  | Some r => or0 (Row.weighted r)
  | None => 0
  end.

Definition calculatedAPY (outcome : list (option Row.t)) : number :=
  fold_left (fun acc item => acc + weighted_or0 item) outcome 0.

(** Everything after the seeding, over a given catalog. *)
Definition project_of (catalog : list Entry.t) : result Data.t :=
  outcome <- outcome_of catalog ;;
  Return
    {| Data.outcome := outcome;
       Data.calculatedAPY := calculatedAPY outcome;
       Data.totalStables := totalStables;
       Data.holdingsSummary := holdingsSummary;
       Data.totalHoldings := totalHoldings;
       Data.ousdStrategies := ousdStrategies;
       Data.apys := apys |}.

Definition project : result Data.t := project_of strategies.

(** The body of the effect once both fetches have resolved: the argument
    of [setAllocations] if that call is reached, and the argument of
    [setData] or the exception that kept it from being reached. *)
Definition effect : option allocations * result Data.t :=
  match baseline with
  | Throw e => (None, Throw e)
  | Return seeded => (Some seeded, project)
  end.

End Projection.

(** [onChangeBoostMultiplier]: the new state is [parseFloat(boostValue)];
    [parseFloat] is kept abstract. *)
Definition onChangeBoostMultiplier (parseFloat : string -> number)
    (boostValue : string) : number :=
  parseFloat boostValue.

(** ** A sample cycle, used to run the definitions *)

Module Sample.

Local Open Scope float_scope.

Definition held (name : string) (dai usdc usdt : number) : Info.t :=
  {| Info.name := Some name;
     Info.holdings := Some [("DAI", dai); ("USDC", usdc); ("USDT", usdt)] |}.

Definition fetched : snapshot :=
  [ ("vault_holding", held "Vault" 7 7 7);
    ("aavestrat_holding", held "Aave Strategy" 100 0 50);
    ("compstrat_holding", held "Compound Strategy" 100 200 50);
    ("threepoolstrat_holding", held "Convex Strategy" 0 0 0);
    ("lusd_metastrat", held "LUSD MetaStrategy" 0 100 0);
    ("ousd_metastrat", held "OUSD MetaStrategy" 200 100 100);
    ("morpho_aave_strat", held "Morpho Aave Strategy" 0 0 0);
    ("morpho_strat", held "Morpho Strategy" 0 400 200) ].

(** The same strategies, every one holding nothing. *)
Definition fetched_empty : snapshot :=
  map (fun kv => (fst kv, held "s" 0 0 0)) fetched.

Definition quote (base reward : number) : Quote.t :=
  {| Quote.base := base; Quote.reward := reward |}.

(** Quotes for every key of the catalog except [morphoAaveUSDT]. *)
Definition apys : Obj.t Quote.t :=
  [ ("ADAI", quote 0.03125 0); ("AUSDC", quote 0.0625 0);
    ("AUSDT", quote 0.03125 0.015625); ("cDAI", quote 0.03125 0);
    ("cUSDC", quote 0.03125 0); ("cUSDT", quote 0.0625 0.03125);
    ("convex3pool", quote 0.015625 0.03125);
    ("convexLusd3Crv", quote 0.03125 0.03125);
    ("convexOusd3Crv", quote 0.0625 0.0625);
    ("morphoAaveDAI", quote 0.03125 0); ("morphoAaveUSDC", quote 0.03125 0);
    ("morphoCompoundDAI", quote 0.03125 0);
    ("morphoCompoundUSDC", quote 0.03125 0);
    ("morphoCompoundUSDT", quote 0.03125 0) ].

Definition details_of (f : snapshot) : Details.t :=
  match fetchOUSDDetails f with
  | Return d => d
  | Throw _ =>
      {| Details.totalHoldings := []; Details.ousdStrategies := [];
         Details.totalStables := 0; Details.holdingsSummary := [] |}
  end.

Definition details : Details.t := Eval vm_compute in details_of fetched.
Definition details_empty : Details.t := Eval vm_compute in details_of fetched_empty.

(** The matrix seeded from [details]. *)
Definition seeded : allocations :=
  Eval vm_compute in
    match baseline details with
    | Return a => a
    | Throw _ => []
    end.

End Sample.

Local Open Scope list_scope.

(** ** The words of the specification *)

(** [m[asset][strategy]], or [undefined]. *)
Definition cell (m : allocations) (asset strategy : string) : option number :=
  match Obj.get m asset with
  | Some row => Obj.get row strategy
  | None => None
  end.

(** [allocationMatrix[a][strategy]], read as a number. *)
Definition matrix_cell (m : allocations) (asset strategy : string) : number :=
  to_number (cell m asset strategy).

(** [perAssetTotal[a]], read as a number in a product. *)
Definition perAssetTotal (d : Details.t) (asset : string) : number :=
  to_number (Obj.get (Details.totalHoldings d) asset).

(** [grandTotal] *)
Definition grandTotal (d : Details.t) : number := Details.totalStables d.

(** The rows that were emitted, in order: [outcome] without its [null]s. *)
Fixpoint emitted (outcome : list (option Row.t)) : list Row.t :=
  match outcome with
  | [] => []
  | Some r :: rest => r :: emitted rest
  | None :: rest => emitted rest
  end.

(** A plain sum, left to right from 0. *)
Definition sum (xs : list number) : number :=
  fold_left (fun acc x => (acc + x)%float) xs 0%float.

(** The sum in which a [NaN] term counts as 0. *)
Definition sum_or0 (xs : list number) : number :=
  fold_left (fun acc x => (acc + or0 x)%float) xs 0%float.

(** Not a number that [x / 0] can be: neither a zero nor finite. *)
Definition nan_or_infinite (x : number) : Prop :=
  x = nan \/ x = infinity \/ x = neg_infinity.

(** Two objects that read the same at every key, whatever their order. *)
Definition same_props {V : Type} (a b : Obj.t V) : Prop :=
  forall k, Obj.get a k = Obj.get b k.

(** Two matrices with the same rows, each reading the same. *)
Definition same_matrix (a b : allocations) : Prop :=
  forall t,
    match Obj.get a t, Obj.get b t with
    | Some ra, Some rb => same_props ra rb
    | None, None => True
    | _, _ => False
    end.

(** Two details that read the same. *)
Definition same_details (a b : Details.t) : Prop :=
  same_props (Details.totalHoldings a) (Details.totalHoldings b)
  /\ same_props (Details.ousdStrategies a) (Details.ousdStrategies b)
  /\ Details.totalStables a = Details.totalStables b
  /\ same_props (Details.holdingsSummary a) (Details.holdingsSummary b).

(** The allocation the specification asks of a row: for a basket the
    quotients are added up from 0 in basket order, each product being divided
    by the grand total before it is added. *)
Definition expected_allocation (m : allocations) (d : Details.t)
    (strategy : string) (s : scope) : number :=
  match s with
  | Single a =>
      (matrix_cell m a strategy * perAssetTotal d a / grandTotal d)%float
  | Basket basket =>
      fold_left
        (fun acc ai =>
           (acc + matrix_cell m ai strategy * perAssetTotal d ai / grandTotal d)%float)
        basket 0%float
  end.

(** The other reading of the basket formula: the products added up from 0
    in basket order, and their sum divided by the grand total once. *)
Definition quotient_of_sum (m : allocations) (d : Details.t)
    (strategy : string) (basket : list string) : number :=
  (fold_left
     (fun acc ai => (acc + matrix_cell m ai strategy * perAssetTotal d ai)%float)
     basket 0%float
   / grandTotal d)%float.

(** The [total] the loop of a basket accumulates. *)
Definition basket_total (d : Details.t) (basket : list string) : number :=
  fold_left
    (fun acc ai =>
       (acc + to_number (Obj.get_u (Details.holdingsSummary d) ai))%float)
    basket 0%float.

(** The tokens a catalog entry ranges over. *)
Definition scope_tokens (s : scope) : list string :=
  match s with
  | Single token => [token]
  | Basket tokens => tokens
  end.

(** The inputs on which no [TypeError] is raised by [outcome]: the matrix has
    a row for each of the three stablecoins, and each has a holdings summary. *)
Definition complete (allocs : allocations) (details : Details.t) : Prop :=
  forall t, In t stables ->
    (exists row, Obj.get allocs t = Some row)
    /\ (exists x, Obj.get_u (Details.holdingsSummary details) t = Some x).

(** [x >= 0]: a zero, a positive number or [Infinity]; not [NaN]. *)
Definition nonneg (x : number) : bool := (0 <=? x)%float.

(** The same on the specification side. *)
Definition nonnegSF (x : spec_float) : Prop :=
  match x with
  | S754_zero _ => True
  | S754_infinity s => s = false
  | S754_nan => False
  | S754_finite s _ _ => s = false
  end.

(** Every amount of the snapshot is [>= 0]. *)
Definition amounts_nonneg (data : snapshot) : bool :=
  forallb
    (fun kv =>
       match Info.holdings (snd kv) with
       | Some holdings => forallb (fun tx => nonneg (snd tx)) holdings
       | None => true
       end)
    data.

(** Every stored value of an object satisfies [P]. *)
Definition all_values (P : number -> Prop) (o : Obj.t number) : Prop :=
  forall k x, Obj.get o k = Some x -> P x.

(** Every amount of every strategy of the snapshot satisfies [P]. *)
Definition all_amounts (P : number -> Prop) (data : snapshot) : Prop :=
  forall key info holdings t x,
    Obj.get data key = Some info -> Info.holdings info = Some holdings ->
    Obj.get holdings t = Some x -> P x.

(** ** The tables: [StrategyTable] and [AllocationsTable] *)

(** The accumulator of the [StrategyTable] summary. *)
Module Summary.
Record t : Type :=
  { allocation : number;
    allocationAmount : number;
    base : number;
    reward : number;
    strategy : number;
    boosted : number;
    weighted : number }.
End Summary.

(** [Number(item?.f || 0)] for a numeric field [f] of a row. *)
Definition field_or0 (f : Row.t -> number) (item : option Row.t) : number :=
  match item with
  | Some r => or0 (f r)
  | None => 0%float
  end.

(** The [useMemo] of [StrategyTable]: [outcome?.reduce(...)], [undefined]
    while there is no outcome. *)
Definition strategySummary (outcome : option (list (option Row.t)))
  : option Summary.t :=
  match outcome with
  | None => None
  | Some items =>
      Some
        (fold_left
           (fun acc item =>
              {| Summary.allocation :=
                   (Summary.allocation acc + field_or0 Row.allocation item)%float;
                 Summary.allocationAmount :=
                   (Summary.allocationAmount acc
                    + field_or0 Row.allocationAmount item)%float;
                 Summary.base := (Summary.base acc + field_or0 Row.base item)%float;
                 Summary.reward :=
                   (Summary.reward acc + field_or0 Row.reward item)%float;
                 Summary.strategy :=
                   (Summary.strategy acc + field_or0 Row.strategy item)%float;
                 Summary.boosted :=
                   (Summary.boosted acc + field_or0 Row.boosted item)%float;
                 Summary.weighted :=
                   (Summary.weighted acc + field_or0 Row.weighted item)%float |})
           items
           {| Summary.allocation := 0%float; Summary.allocationAmount := 0%float;
              Summary.base := 0%float; Summary.reward := 0%float;
              Summary.strategy := 0%float; Summary.boosted := 0%float;
              Summary.weighted := 0%float |})
  end.

(** One [<tr>] of the [StrategyTable] body: its React key and the texts of
    its cells. *)
Module Tr.
Record t : Type := { key : string; cells : list string }.
End Tr.

Section StrategyTable.

(** [Number.prototype.toFixed] and the [Intl] currency format are kept
    abstract. *)
Variable toFixed : number -> nat -> string.
Variable toCurrency : number -> string.

Definition toPercent (value : number) : string :=
  toFixed (value * 100)%float 2.

(** [`${name}`]: a missing name prints as "undefined". *)
Definition name_text (name : option string) : string :=
  match name with
  | Some n => n
  | None => "undefined"
  end.

(** The callback of [outcome?.map] in the table body.  Its parameter
    destructures the item, which throws on [null]. *)
Definition strategyRow (item : option Row.t) : result Tr.t :=
  r <- expect item ;;
  let display :=
    (name_text (Row.name r) ++ " "
     ++ match Row.token r with
        | Basket _ => ""
        | Single token => token
        end)%string in
  Return
    {| Tr.key := display;
       Tr.cells :=
         [ display;
           (toPercent (Row.allocation r) ++ "%")%string;
           toCurrency (Row.allocationAmount r);
           (toPercent (Row.base r) ++ "%")%string;
           (toPercent (Row.reward r) ++ "%")%string;
           (toPercent (Row.strategy r) ++ "%")%string;
           (toPercent (Row.boosted r) ++ "%")%string;
           (toPercent (Row.weighted r) ++ "%")%string ] |}.

Definition strategyRows (outcome : list (option Row.t)) : result (list Tr.t) :=
  mapM strategyRow outcome.

End StrategyTable.

(** The accumulator of the [AllocationsTable] summary: the two holdings
    figures and one sum per strategy, in the order of the literal. *)
Module Footer.
Record t : Type :=
  { percentHoldings : number;
    totalHoldings : number;
    byStrategy : Obj.t number }.
End Footer.


(** ** Further words for stating properties *)

(** [data[key]?.holdings] *)
Definition holdings_at (data : snapshot) (key : string) : option (Obj.t number) :=
  match Obj.get data key with
  | Some info => Info.holdings info
  | None => None
  end.

(** The names under which a plain object reads a member of
    [Object.prototype] where it has no property of its own (ECMAScript, with
    its Annex B). *)
Definition objectPrototypeNames : list string :=
  [ "constructor"; "__defineGetter__"; "__defineSetter__"; "hasOwnProperty";
    "__lookupGetter__"; "__lookupSetter__"; "isPrototypeOf";
    "propertyIsEnumerable"; "toString"; "valueOf"; "__proto__";
    "toLocaleString" ].

(** A token under which an accumulator that started as [{}] reads only what
    was stored in it. *)
Definition own_name (token : string) : bool :=
  negb (includes objectPrototypeNames token).

(** The amounts of one token, in the order [processStrategies] meets them:
    strategy by strategy, one per listing of the token. *)
Definition token_amounts (data : snapshot) (token : string) : list number :=
  flat_map
    (fun key =>
       match holdings_at data key with
       | Some holdings =>
           map (fun _ => to_number (Obj.get holdings token))
             (filter (String.eqb token) (Obj.keys holdings))
       | None => []
       end)
    (Obj.keys data).

(** The running total of a token: a total that is 0 or NaN restarts at 0
    before the next amount is added. *)
Definition running_total (amounts : list number) : option number :=
  fold_left
    (fun acc h =>
       Some ((match acc with
              | Some x => if falsy x then 0 else x
              | None => 0
              end + h)%float))
    amounts None.

(** The last reserve of a response that carries the symbol. *)
Definition last_reserve (reserves : list Aave.reserve) (symbol : string)
  : option Aave.reserve :=
  find (fun r => match Aave.symbol r with
                 | Some s => String.eqb s symbol
                 | None => false
                 end)
    (rev reserves).

(** The quote [processAAVE] writes for a reserve. *)
Definition aave_quote (string_to_number : string -> number) (r : Aave.reserve)
  : Quote.t :=
  {| Quote.base := Number string_to_number (Aave.liquidityRate r);
     Quote.reward := Number string_to_number (or_zero (Aave.aIncentivesAPY r)) |}.

(** A recognized cToken that lacks one of the two rate objects. *)
Definition ctoken_incomplete (c : Compound.ctoken) : Prop :=
  (exists symbol, Compound.symbol c = Some symbol
                  /\ includes (Obj.keys compoundTokens) symbol = true)
  /\ (Compound.supply_rate c = None \/ Compound.comp_supply_apy c = None).

(** A catalog entry on which [outcome] throws: it has a snapshot entry and a
    quote, and one of its tokens has no row in the matrix or, for a
    single-asset entry, no holdings summary. *)
Definition entry_throws (allocs : allocations) (details : Details.t)
    (apys : Obj.t Quote.t) (e : Entry.t) : Prop :=
  Obj.get (Details.ousdStrategies details) (Entry.strategyId e) <> None
  /\ Obj.get apys (Entry.apy e) <> None
  /\ match Entry.token e with
     | Single token =>
         Obj.get allocs token = None
         \/ Obj.get_u (Details.holdingsSummary details) token = None
     | Basket tokens =>
         exists token, In token tokens /\ Obj.get allocs token = None
     end.

(** ** Inputs used to run the definitions *)

(** The data of the sample cycle. *)
Definition sample_data : Data.t :=
  Eval vm_compute in
    match project Sample.seeded 2%float Sample.details Sample.apys with
    | Return d => d
    | Throw _ =>
        {| Data.outcome := []; Data.calculatedAPY := 0%float;
           Data.totalStables := 0%float; Data.holdingsSummary := [];
           Data.totalHoldings := []; Data.ousdStrategies := []; Data.apys := [] |}
    end.

(** The 3pool strategy holding everything there is: 1 DAI, 4 USDC, 1 USDT. *)
Definition fetched_one_basket : snapshot :=
  map (fun kv =>
         (fst kv,
          if String.eqb (fst kv) "threepoolstrat_holding"
          then Sample.held "Convex Strategy" 1%float 4%float 1%float
          else Sample.held "s" 0%float 0%float 0%float))
    Sample.fetched.

Definition details_one_basket : Details.t :=
  Eval vm_compute in Sample.details_of fetched_one_basket.

(** The matrix seeded from it: the 3pool cells are 1, the others 0. *)
Definition seeded_one_basket : allocations :=
  Eval vm_compute in
    match baseline details_one_basket with
    | Return a => a
    | Throw _ => []
    end.

(** Two strategies holding two tokens, listed in different orders. *)
Definition fetched_two_tokens : snapshot :=
  [ ("aavestrat_holding",
     {| Info.name := None;
        Info.holdings := Some [("DAI", 2%float); ("USDC", 7%float)] |});
    ("compstrat_holding",
     {| Info.name := None;
        Info.holdings := Some [("USDC", 1%float); ("DAI", 3%float)] |}) ].


(** An AAVE reserve of a recognized symbol without [liquidityRate]. *)
Definition aave_without_base : Aave.response :=
  {| Aave.reserves :=
       Some [ Some {| Aave.symbol := Some "ADAI";
                      Aave.liquidityRate := None;
                      Aave.aIncentivesAPY := None |} ] |}.

(** An AAVE response in which ADAI comes twice, around a reserve that is
    not an aToken of the catalog. *)
Definition aave_with_repeated_symbol : Aave.response :=
  {| Aave.reserves :=
       Some
         (map Some
            [ {| Aave.symbol := Some "ADAI";
                 Aave.liquidityRate := Some (JNum 0.5%float);
                 Aave.aIncentivesAPY := None |};
              {| Aave.symbol := Some "WETH";
                 Aave.liquidityRate := Some (JNum 0.25%float);
                 Aave.aIncentivesAPY := None |};
              {| Aave.symbol := Some "ADAI";
                 Aave.liquidityRate := Some (JNum 0.125%float);
                 Aave.aIncentivesAPY := Some JNull |} ]) |}.

(** A Compound cToken of a recognized symbol without [supply_rate]. *)
Definition compound_without_base : Compound.response :=
  {| Compound.cToken :=
       Some [ Some {| Compound.symbol := Some "cDAI";
                      Compound.supply_rate := None;
                      Compound.comp_supply_apy :=
                        Some {| Compound.value := Some (JNum 2%float) |} |} ] |}.

(** A Compound cToken whose [comp_supply_apy] has no [value]. *)
Definition compound_without_reward_value : Compound.response :=
  {| Compound.cToken :=
       Some [ Some {| Compound.symbol := Some "cDAI";
                      Compound.supply_rate :=
                        Some {| Compound.value := Some (JNum 0.03125%float) |};
                      Compound.comp_supply_apy :=
                        Some {| Compound.value := None |} |} ] |}.

(** A DefiLlama chart without data points. *)
Definition llama_without_points : Llama.response := {| Llama.data := Some [] |}.

(** A DefiLlama data point without rates. *)
Definition llama_without_rates : Llama.response :=
  {| Llama.data :=
       Some [ Some {| Llama.apyBase := None; Llama.apyReward := None |} ] |}.

(** * Facts *)

(** ** Facts of binary64 arithmetic used below *)

Section Binary64.

Local Open Scope Z_scope.

Lemma digits2_pos_lower (p : positive) :
  2 ^ (Z.pos (digits2_pos p) - 1) <= Z.pos p.
Proof.
  induction p as [p IH | p IH | ]; cbn [digits2_pos].
  - rewrite Pos2Z.inj_succ.
    replace (Z.succ (Z.pos (digits2_pos p)) - 1) with (Z.succ (Z.pos (digits2_pos p) - 1)) by lia.
    rewrite Z.pow_succ_r by lia. lia.
  - rewrite Pos2Z.inj_succ.
    replace (Z.succ (Z.pos (digits2_pos p)) - 1) with (Z.succ (Z.pos (digits2_pos p) - 1)) by lia.
    rewrite Z.pow_succ_r by lia. lia.
  - reflexivity.
Qed.

Lemma shr_1_m (mrs : shr_record) :
  0 <= shr_m mrs -> shr_m (shr_1 mrs) = shr_m mrs / 2.
Proof.
  destruct mrs as [m r s]; cbn [shr_m shr_1]; intros Hm.
  destruct m as [ | [p | p | ] | p ]; cbn [shr_m]; try lia.
  - reflexivity.
  - rewrite Pos2Z.inj_xI. apply Z.div_unique with (r := 1); lia.
  - rewrite Pos2Z.inj_xO. apply Z.div_unique with (r := 0); lia.
  - reflexivity.
Qed.

Lemma iter_shr_1_m (p : positive) :
  forall mrs, 0 <= shr_m mrs ->
    shr_m (iter_pos shr_1 p mrs) = shr_m mrs / 2 ^ Z.pos p.
Proof.
  assert (Hnn : forall m k, 0 <= m -> 0 < k -> 0 <= m / k)
    by (intros; apply Z.div_pos; lia).
  induction p as [p IH | p IH | ]; intros mrs Hm; cbn [iter_pos].
  - assert (H2 : 0 < 2 ^ Z.pos p) by (apply Z.pow_pos_nonneg; lia).
    assert (H1 : 0 <= shr_m (shr_1 mrs))
      by (rewrite shr_1_m by assumption; apply Hnn; lia).
    assert (H3 : 0 <= shr_m (iter_pos shr_1 p (shr_1 mrs)))
      by (rewrite IH by assumption; apply Hnn; lia).
    rewrite (IH _ H3), (IH _ H1), shr_1_m by assumption.
    rewrite !Z.div_div by lia.
    f_equal.
    replace (Z.pos p~1) with (1 + Z.pos p + Z.pos p) by lia.
    rewrite !Z.pow_add_r, Z.pow_1_r by lia. ring.
  - assert (H2 : 0 < 2 ^ Z.pos p) by (apply Z.pow_pos_nonneg; lia).
    assert (H3 : 0 <= shr_m (iter_pos shr_1 p mrs))
      by (rewrite IH by assumption; apply Hnn; lia).
    rewrite (IH _ H3), (IH _ Hm).
    rewrite !Z.div_div by lia.
    f_equal.
    replace (Z.pos p~0) with (Z.pos p + Z.pos p) by lia.
    rewrite !Z.pow_add_r by lia. ring.
  - rewrite shr_1_m by assumption. reflexivity.
Qed.

(** Rounding a positive mantissa whose exponent is at least [emin] never
    loses it entirely: the shifted mantissa stays positive. *)
Lemma shr_fexp_pos (m : positive) (e : Z) (l : location) :
  emin <= e ->
  0 < shr_m (fst (shr_fexp prec emax (Z.pos m) e l))
  /\ emin <= snd (shr_fexp prec emax (Z.pos m) e l).
Proof.
  intros He. unfold shr_fexp, shr.
  assert (Hrec : shr_m (shr_record_of_loc (Z.pos m) l) = Z.pos m)
    by (destruct l as [ | [ | | ]]; reflexivity).
  destruct (fexp prec emax (Zdigits2 (Z.pos m) + e) - e) as [ | n | n ] eqn:Hn;
    cbn [fst snd]; rewrite ?Hrec; try (split; lia).
  unfold fexp, SpecFloat.emin in Hn. cbn [Zdigits2] in Hn.
  unfold SpecFloat.emin in He.
  assert (Hnd : Z.pos n = Z.pos (digits2_pos m) - prec) by lia.
  rewrite iter_shr_1_m by (rewrite Hrec; lia).
  rewrite Hrec. split; [ | unfold SpecFloat.emin; lia ].
  pose proof (digits2_pos_lower m) as Hlow.
  apply Z.div_str_pos. split; [ apply Z.pow_pos_nonneg; lia | ].
  apply Z.le_trans with (2 := Hlow).
  apply Z.pow_le_mono_r; [ lia | ]. unfold prec in Hnd. lia.
Qed.

Lemma round_nearest_even_pos (m : Z) (l : location) :
  0 < m -> 0 < round_nearest_even m l.
Proof.
  intros Hm. destruct l as [ | [ | | ]]; cbn [round_nearest_even];
    try destruct (Z.even m); lia.
Qed.

(** Rounding a positive mantissa at an exponent of at least [emin] gives a
    finite number or an infinity of the same sign, never a zero. *)
Lemma binary_round_aux_shape (s : bool) (m : positive) (e : Z) (l : location) :
  emin <= e ->
  binary_round_aux prec emax s (Z.pos m) e l = S754_infinity s
  \/ exists m' e', binary_round_aux prec emax s (Z.pos m) e l = S754_finite s m' e'.
Proof.
  intros He. unfold binary_round_aux.
  destruct (shr_fexp_pos m e l He) as [Hm1 He1].
  destruct (shr_fexp prec emax (Z.pos m) e l) as [mrs1 e1]; cbn [fst snd] in *.
  pose proof (round_nearest_even_pos _ (loc_of_shr_record mrs1) Hm1) as Hr.
  destruct (round_nearest_even (shr_m mrs1) (loc_of_shr_record mrs1))
    as [ | m2 | m2 ]; try lia.
  destruct (shr_fexp_pos m2 e1 loc_Exact He1) as [Hm2 _].
  destruct (shr_fexp prec emax (Z.pos m2) e1 loc_Exact) as [mrs2 e2]; cbn [fst] in *.
  destruct (shr_m mrs2); try lia.
  destruct (e2 <=? emax - prec); eauto.
Qed.

Lemma binary_round_shape (s : bool) (m : positive) (e : Z) :
  emin <= e ->
  binary_round prec emax s m e = S754_infinity s
  \/ exists m' e', binary_round prec emax s m e = S754_finite s m' e'.
Proof.
  intros He. unfold binary_round, shl_align.
  destruct (fexp prec emax (Z.pos (digits2_pos m) + e) - e) eqn:Hd;
    try (apply binary_round_aux_shape; assumption).
  apply binary_round_aux_shape. unfold fexp. lia.
Qed.

Lemma binary_round_nonzero (s s' : bool) (m : positive) (e : Z) :
  emin <= e -> binary_round prec emax s m e <> S754_zero s'.
Proof.
  intros He. destruct (binary_round_shape s m e He) as [-> | (m' & e' & ->)];
    discriminate.
Qed.

Lemma valid_finite_emin (s : bool) (m : positive) (e : Z) :
  valid_binary (S754_finite s m e) = true -> emin <= e.
Proof.
  cbn [SpecFloat.valid_binary]. unfold bounded, canonical_mantissa, fexp.
  intros H. apply andb_prop in H. destruct H as [H _].
  apply Z.eqb_eq in H. lia.
Qed.

(** An IEEE sum is a zero only when both operands are zeros or when two
    finite operands cancel exactly; in the second case it is [+0]. *)
Lemma SF64add_zero_inv (x y : spec_float) (s : bool) :
  valid_binary x = true -> valid_binary y = true ->
  SF64add x y = S754_zero s ->
  (exists sx sy, x = S754_zero sx /\ y = S754_zero sy /\ s = andb sx sy)
  \/ (exists sx mx ex sy my ey,
        x = S754_finite sx mx ex /\ y = S754_finite sy my ey /\
        sx <> sy /\ s = false).
Proof.
  intros Vx Vy. unfold SF64add, SFadd.
  destruct x as [sx | sx | | sx mx ex], y as [sy | sy | | sy my ey];
    try discriminate;
    try (destruct sx, sy; discriminate).
  - intros H. left. exists sx, sy.
    destruct sx, sy; inversion H; auto.
  - intros H. right. exists sx, mx, ex, sy, my, ey.
    apply valid_finite_emin in Vx. apply valid_finite_emin in Vy.
    assert (Hz : emin <= Z.min ex ey) by lia.
    set (a := fst (shl_align mx ex (Z.min ex ey))) in H.
    set (b := fst (shl_align my ey (Z.min ex ey))) in H.
    unfold binary_normalize in H.
    destruct (cond_Zopp sx (Z.pos a) + cond_Zopp sy (Z.pos b)) eqn:Hsum.
    + inversion H; subst s.
      repeat split; auto.
      destruct sx, sy; cbn [cond_Zopp] in Hsum; try lia; discriminate.
    + exfalso. exact (binary_round_nonzero _ _ _ _ Hz H).
    + exfalso. exact (binary_round_nonzero _ _ _ _ Hz H).
Qed.

End Binary64.

(** The same facts on primitive floats, through their specification. *)

Section NumberFacts.

Local Open Scope float_scope.

Lemma Prim2SF_nan : Prim2SF nan = S754_nan.
Proof. reflexivity. Qed.

Lemma Prim2SF_zero : Prim2SF 0 = S754_zero false.
Proof. reflexivity. Qed.

Lemma Prim2SF_neg_zero : Prim2SF neg_zero = S754_zero true.
Proof. reflexivity. Qed.

Lemma of_SF_nan (x : number) : Prim2SF x = S754_nan -> x = nan.
Proof. intros H. apply Prim2SF_inj. rewrite H. reflexivity. Qed.

Lemma of_SF_zero (x : number) (s : bool) :
  Prim2SF x = S754_zero s -> x = if s then neg_zero else 0.
Proof. intros H. apply Prim2SF_inj. rewrite H. destruct s; reflexivity. Qed.

Lemma SFeqb_refl (x : spec_float) : x <> S754_nan -> SFeqb x x = true.
Proof.
  intros Hx. unfold SFeqb, SFcompare.
  destruct x as [s | s | | s m e]; try congruence; try (destruct s; reflexivity).
  destruct s; rewrite Z.compare_refl, Pos.compare_cont_refl; reflexivity.
Qed.

Lemma is_nan_spec (x : number) : is_nan x = true <-> x = nan.
Proof.
  unfold is_nan. rewrite eqb_spec. split.
  - intros H. apply of_SF_nan.
    destruct (Prim2SF x) eqn:E; try reflexivity;
      rewrite SFeqb_refl in H by discriminate; discriminate.
  - intros ->. reflexivity.
Qed.

Lemma is_zero_spec (x : number) :
  is_zero x = true <-> x = 0 \/ x = neg_zero.
Proof.
  unfold is_zero. rewrite eqb_spec. split.
  - intros H. destruct (Prim2SF x) as [s | s | | s m e] eqn:E.
    + apply of_SF_zero in E. destruct s; auto.
    + destruct s; discriminate.
    + discriminate.
    + destruct s; discriminate.
  - intros [-> | ->]; reflexivity.
Qed.

Lemma falsy_spec (x : number) :
  falsy x = true <-> x = nan \/ x = 0 \/ x = neg_zero.
Proof.
  unfold falsy. rewrite orb_true_iff, is_nan_spec, is_zero_spec. tauto.
Qed.

(** What [x || 0] can be: never [NaN] and never [-0]. *)
Lemma or0_not_neg_zero (x : number) : or0 x <> neg_zero.
Proof.
  unfold or0. destruct (falsy x) eqn:F; [ discriminate | ].
  intros ->. discriminate.
Qed.

Lemma or0_falsy (x : number) : falsy x = true -> or0 x = 0.
Proof. unfold or0. intros ->. reflexivity. Qed.

Lemma add_nan_l (x : number) : nan + x = nan.
Proof.
  apply of_SF_nan. rewrite add_spec, Prim2SF_nan. reflexivity.
Qed.

Lemma add_nan_r (x : number) : x + nan = nan.
Proof.
  apply of_SF_nan. rewrite add_spec, Prim2SF_nan.
  unfold SF64add, SFadd. destruct (Prim2SF x); reflexivity.
Qed.

Lemma add_zero_r (x : number) : x <> neg_zero -> x + 0 = x.
Proof.
  intros Hx. apply Prim2SF_inj. rewrite add_spec, Prim2SF_zero.
  unfold SF64add, SFadd.
  destruct (Prim2SF x) as [s | s | | s m e] eqn:E; try reflexivity.
  destruct s; [ | reflexivity ].
  apply of_SF_zero in E. contradiction.
Qed.


(** A sum is [-0] only when both operands are [-0]. *)
Lemma add_neg_zero_inv (x y : number) :
  x + y = neg_zero -> x = neg_zero /\ y = neg_zero.
Proof.
  intros H. apply (f_equal Prim2SF) in H.
  rewrite add_spec, Prim2SF_neg_zero in H.
  apply SF64add_zero_inv in H; try apply Prim2SF_valid.
  destruct H as [(sx & sy & Ex & Ey & Hs) | (sx & mx & ex & sy & my & ey & _ & _ & _ & Hs)];
    [ | discriminate ].
  symmetry in Hs. apply andb_prop in Hs. destruct Hs; subst sx sy.
  apply of_SF_zero in Ex, Ey. auto.
Qed.

Lemma add_not_neg_zero (x y : number) : x <> neg_zero -> x + y <> neg_zero.
Proof. intros Hx H. apply add_neg_zero_inv in H. tauto. Qed.

(** Multiplying by a falsy number (a zero or [NaN]) gives a falsy number. *)
Lemma mul_falsy_r (x y : number) : falsy y = true -> falsy (x * y) = true.
Proof.
  intros Hy. apply falsy_spec in Hy. apply falsy_spec.
  destruct (Prim2SF (x * y)) as [s | s | | s m e] eqn:E.
  - apply of_SF_zero in E. destruct s; auto.
  - exfalso. rewrite mul_spec in E. unfold SF64mul, SFmul in E.
    destruct Hy as [-> | [-> | ->]];
      rewrite ?Prim2SF_nan, ?Prim2SF_zero, ?Prim2SF_neg_zero in E;
      destruct (Prim2SF x); discriminate.
  - apply of_SF_nan in E. auto.
  - exfalso. rewrite mul_spec in E. unfold SF64mul, SFmul in E.
    destruct Hy as [-> | [-> | ->]];
      rewrite ?Prim2SF_nan, ?Prim2SF_zero, ?Prim2SF_neg_zero in E;
      destruct (Prim2SF x); discriminate.
Qed.

Lemma mul_falsy_l (x y : number) : falsy x = true -> falsy (x * y) = true.
Proof.
  intros Hx. apply falsy_spec in Hx. apply falsy_spec.
  destruct (Prim2SF (x * y)) as [s | s | | s m e] eqn:E.
  - apply of_SF_zero in E. destruct s; auto.
  - exfalso. rewrite mul_spec in E. unfold SF64mul, SFmul in E.
    destruct Hx as [-> | [-> | ->]];
      rewrite ?Prim2SF_nan, ?Prim2SF_zero, ?Prim2SF_neg_zero in E;
      destruct (Prim2SF y); discriminate.
  - apply of_SF_nan in E. auto.
  - exfalso. rewrite mul_spec in E. unfold SF64mul, SFmul in E.
    destruct Hx as [-> | [-> | ->]];
      rewrite ?Prim2SF_nan, ?Prim2SF_zero, ?Prim2SF_neg_zero in E;
      destruct (Prim2SF y); discriminate.
Qed.

(** Dividing a falsy number by a zero gives [NaN]. *)
Lemma div_falsy_zero (x y : number) :
  falsy x = true -> is_zero y = true -> x / y = nan.
Proof.
  intros Hx Hy. apply falsy_spec in Hx. apply is_zero_spec in Hy.
  apply of_SF_nan. rewrite div_spec.
  destruct Hx as [-> | [-> | ->]], Hy as [-> | ->]; reflexivity.
Qed.

(** Dividing anything by a zero never gives a zero or a finite number:
    the quotient is [NaN] or an infinity. *)
Lemma div_by_zero (x y : number) :
  is_zero y = true -> x / y = nan \/ x / y = infinity \/ x / y = neg_infinity.
Proof.
  intros Hy. apply is_zero_spec in Hy.
  assert (E : exists sy, Prim2SF y = S754_zero sy)
    by (destruct Hy as [-> | ->]; eexists; reflexivity).
  destruct E as [sy E].
  assert (H : Prim2SF (x / y) = S754_nan \/ exists s, Prim2SF (x / y) = S754_infinity s).
  { rewrite div_spec, E. unfold SF64div, SFdiv.
    destruct (Prim2SF x); eauto. }
  destruct H as [H | [s H]].
  - left. apply of_SF_nan. assumption.
  - right. destruct s; [ right | left ]; apply Prim2SF_inj; rewrite H; reflexivity.
Qed.

End NumberFacts.

(** ** Facts about objects *)

Module ObjFacts.

Section Ops.

Context {V : Type}.

Lemma get_set_eq (o : Obj.t V) (k : string) (v : V) :
  Obj.get (Obj.set o k v) k = Some v.
Proof.
  induction o as [ | [k' v'] o IH]; cbn [Obj.set Obj.get].
  - rewrite String.eqb_refl. reflexivity.
  - destruct (String.eqb k' k) eqn:E; cbn [Obj.get]; rewrite E; auto.
Qed.

Lemma get_set_neq (o : Obj.t V) (k k2 : string) (v : V) :
  k <> k2 -> Obj.get (Obj.set o k v) k2 = Obj.get o k2.
Proof.
  intros Hk. induction o as [ | [k' v'] o IH]; cbn [Obj.set Obj.get].
  - destruct (String.eqb_spec k k2); [ contradiction | reflexivity ].
  - destruct (String.eqb_spec k' k) as [-> | Hk']; cbn [Obj.get].
    + destruct (String.eqb_spec k k2); [ contradiction | reflexivity ].
    + rewrite IH. reflexivity.
Qed.

Lemma get_in_keys (o : Obj.t V) (k : string) :
  In k (Obj.keys o) -> exists v, Obj.get o k = Some v.
Proof.
  induction o as [ | [k' v'] o IH]; cbn [Obj.keys map fst In Obj.get]; [ tauto | ].
  intros [-> | Hin].
  - rewrite String.eqb_refl. eauto.
  - destruct (String.eqb k' k); eauto.
Qed.

End Ops.

End ObjFacts.

(** ** Lemmas on the exception monad *)

Lemma bind_Return_inv {A B : Type} (r : result A) (k : A -> result B) (b : B) :
  bind r k = Return b -> exists a, r = Return a /\ k a = Return b.
Proof. destruct r as [a | e]; cbn [bind]; [ eauto | discriminate ]. Qed.

Lemma mapM_Forall2 {A B : Type} (f : A -> result B) (xs : list A) :
  forall ys, mapM f xs = Return ys -> Forall2 (fun x y => f x = Return y) xs ys.
Proof.
  induction xs as [ | x xs IH]; cbn [mapM]; intros ys H.
  - inversion H. constructor.
  - apply bind_Return_inv in H. destruct H as (y & Hy & H).
    apply bind_Return_inv in H. destruct H as (ys' & Hys & H).
    inversion H; subst ys. constructor; auto.
Qed.

Lemma mapM_total {A B : Type} (f : A -> result B) (xs : list A) :
  Forall (fun x => exists y, f x = Return y) xs -> exists ys, mapM f xs = Return ys.
Proof.
  induction 1 as [ | x xs [y Hy] _ [ys Hys]]; cbn [mapM]; [ eauto | ].
  rewrite Hy, Hys. cbn [bind]. eauto.
Qed.

Lemma mapM_ext {A B : Type} (f g : A -> result B) (xs : list A) :
  (forall x, f x = g x) -> mapM f xs = mapM g xs.
Proof.
  intros H. induction xs as [ | x xs IH]; cbn [mapM]; [ reflexivity | ].
  rewrite H, IH. reflexivity.
Qed.

Lemma mapM_app {A B : Type} (f : A -> result B) (xs1 xs2 : list A) (ys : list B) :
  mapM f (xs1 ++ xs2) = Return ys ->
  exists ys1 ys2,
    mapM f xs1 = Return ys1 /\ mapM f xs2 = Return ys2 /\ ys = ys1 ++ ys2.
Proof.
  revert ys. induction xs1 as [ | x xs1 IH]; cbn [mapM app]; intros ys H.
  - exists [], ys. auto.
  - apply bind_Return_inv in H. destruct H as (y & Hy & H).
    apply bind_Return_inv in H. destruct H as (ys' & Hys & H).
    inversion H; subst ys. destruct (IH _ Hys) as (ys1 & ys2 & H1 & H2 & ->).
    exists (y :: ys1), ys2. rewrite Hy, H1. cbn [bind]. auto.
Qed.

Lemma foldM_ext {A B : Type} (f g : B -> A -> result B) (xs : list A) :
  (forall b x, f b x = g b x) -> forall acc, foldM f xs acc = foldM g xs acc.
Proof.
  intros H. induction xs as [ | x xs IH]; cbn [foldM]; intros acc; [ reflexivity | ].
  rewrite H. destruct (g acc x); cbn [bind]; auto.
Qed.

Lemma Forall2_nth_error {A B : Type} (R : A -> B -> Prop) (xs : list A) (ys : list B) :
  Forall2 R xs ys ->
  forall i x, nth_error xs i = Some x -> exists y, nth_error ys i = Some y /\ R x y.
Proof.
  induction 1 as [ | x0 y0 xs ys HR _ IH]; intros [ | i] x; cbn [nth_error];
    try discriminate.
  - intros H. inversion H; subst. eauto.
  - apply IH.
Qed.

Lemma mapM_app_intro {A B : Type} (f : A -> result B) (xs1 xs2 : list A)
    (ys1 ys2 : list B) :
  mapM f xs1 = Return ys1 -> mapM f xs2 = Return ys2 ->
  mapM f (xs1 ++ xs2) = Return (ys1 ++ ys2).
Proof.
  revert ys1. induction xs1 as [ | x xs1 IH]; cbn [mapM app]; intros ys1 H1 H2.
  - inversion H1. exact H2.
  - apply bind_Return_inv in H1. destruct H1 as (y & Hy & H1).
    apply bind_Return_inv in H1. destruct H1 as (ys' & Hys & H1).
    inversion H1; subst ys1. rewrite Hy, (IH _ Hys H2). reflexivity.
Qed.

Lemma mapM_length {A B : Type} (f : A -> result B) (xs : list A) (ys : list B) :
  mapM f xs = Return ys -> List.length ys = List.length xs.
Proof.
  intros H. apply mapM_Forall2 in H.
  induction H; cbn [List.length]; congruence.
Qed.

Lemma Forall2_In_r {A B : Type} (R : A -> B -> Prop) (xs : list A) (ys : list B) :
  Forall2 R xs ys -> forall y, In y ys -> exists x, In x xs /\ R x y.
Proof.
  induction 1 as [ | x0 y0 xs ys HR _ IH]; cbn [In]; intros y Hy; [ tauto | ].
  destruct Hy as [<- | Hy]; [ eauto | ].
  destruct (IH _ Hy) as (x & Hx & HRx). eauto.
Qed.

(** With one kind of exception, a map throws exactly when its callback
    throws on some element. *)
Lemma mapM_Throw_iff {A B : Type} (f : A -> result B) (xs : list A) :
  mapM f xs = Throw TypeError <-> exists x, In x xs /\ f x = Throw TypeError.
Proof.
  induction xs as [ | x xs IH]; cbn [mapM In].
  - split; [ discriminate | intros (x & [] & _) ].
  - destruct (f x) as [y | []] eqn:E; cbn [bind].
    + destruct (mapM f xs) as [ys | []]; cbn [bind].
      * split; [ discriminate | ].
        intros (x' & [<- | Hin] & Hx); [ congruence | ].
        assert (H : Return ys = Throw TypeError) by (apply IH; eauto).
        discriminate.
      * split; [ | reflexivity ]. intros _.
        destruct IH as [IH _]. destruct (IH eq_refl) as (x' & Hin & Hx). eauto.
    + split; [ eauto | reflexivity ].
Qed.

(** The same for a fold whose body throws on an element whatever the
    accumulator. *)
Lemma foldM_Throw_iff {A B : Type} (f : B -> A -> result B) (bad : A -> Prop)
    (xs : list A) :
  (forall acc x, f acc x = Throw TypeError <-> bad x) ->
  forall acc,
    foldM f xs acc = Throw TypeError <-> exists x, In x xs /\ bad x.
Proof.
  intros Hf. induction xs as [ | x xs IH]; cbn [foldM In]; intros acc.
  - split; [ discriminate | intros (x & [] & _) ].
  - destruct (f acc x) as [acc' | []] eqn:E; cbn [bind].
    + rewrite IH. split.
      * intros (x' & Hin & Hx). eauto.
      * intros (x' & [<- | Hin] & Hx); [ | eauto ].
        apply (Hf acc) in Hx. congruence.
    + split; [ | reflexivity ]. intros _. exists x. split; [ auto | ].
      apply (Hf acc). exact E.
Qed.

(** A fold whose callback destructures its element: it returns exactly on
    the lists without a [null], with the fold of the plain callback. *)
Lemma foldM_expect_map_Some {A B : Type} (g : B -> A -> B) (xs : list A) :
  forall acc,
    foldM (fun acc item => x <- expect item ;; Return (g acc x)) (map Some xs) acc
    = Return (fold_left g xs acc).
Proof.
  induction xs as [ | x xs IH]; cbn [map foldM fold_left expect bind]; intros acc;
    [ reflexivity | apply IH ].
Qed.

Lemma foldM_expect_Return {A B : Type} (g : B -> A -> B) (items : list (option A)) :
  forall acc out,
    foldM (fun acc item => x <- expect item ;; Return (g acc x)) items acc
    = Return out ->
    exists xs, items = map Some xs /\ out = fold_left g xs acc.
Proof.
  induction items as [ | [x | ] items IH]; cbn [foldM expect bind]; intros acc out E.
  - exists []. inversion E. split; reflexivity.
  - destruct (IH _ _ E) as (xs & -> & ->). exists (x :: xs). split; reflexivity.
  - discriminate.
Qed.

(** ** Facts about one projection cycle *)

Section ProjectionFacts.

Local Open Scope float_scope.

Variable allocs : allocations.
Variable boost : number.
Variable details : Details.t.
Variable apys : Obj.t Quote.t.

Lemma share_spec (strategyId token : string) (s : number) :
  share allocs details strategyId token = Return s ->
  s = matrix_cell allocs token strategyId * perAssetTotal details token
      / grandTotal details.
Proof.
  unfold share, matrix_cell, cell, perAssetTotal, grandTotal.
  destruct (Obj.get allocs token) as [row | ]; cbn [expect bind]; [ | discriminate ].
  intros H. inversion H. reflexivity.
Qed.

Lemma share_total (strategyId token : string) :
  (exists row, Obj.get allocs token = Some row) ->
  exists s, share allocs details strategyId token = Return s.
Proof.
  intros [row Hrow]. unfold share. rewrite Hrow. cbn [expect bind]. eauto.
Qed.

Lemma basket_fold (strategyId : string) (tokens : list string) :
  forall a0 t0 a t,
    foldM
      (fun at_ currentToken =>
         s <- share allocs details strategyId currentToken ;;
         Return (fst at_ + s,
                 snd at_ + to_number
                   (Obj.get_u (Details.holdingsSummary details) currentToken)))
      tokens (a0, t0) = Return (a, t) ->
    a = fold_left
          (fun acc ai =>
             acc + matrix_cell allocs ai strategyId * perAssetTotal details ai
                   / grandTotal details)
          tokens a0
    /\ t = fold_left
             (fun acc ai =>
                acc + to_number (Obj.get_u (Details.holdingsSummary details) ai))
             tokens t0.
Proof.
  induction tokens as [ | tk tokens IH]; cbn [foldM fold_left]; intros a0 t0 a t H.
  - inversion H. auto.
  - apply bind_Return_inv in H. destruct H as ([a1 t1] & H1 & H).
    apply bind_Return_inv in H1. destruct H1 as (s & Hs & H1).
    apply share_spec in Hs. inversion H1; subst a1 t1 s.
    cbn [fst snd] in H. apply IH in H. exact H.
Qed.

Lemma allocation_total_spec (strategyId : string) (s : scope) (a : number)
    (tot : option number) :
  allocation_total allocs details strategyId s = Return (a, tot) ->
  a = expected_allocation allocs details strategyId s
  /\ tot = match s with
           | Single _ => None
           | Basket basket => Some (basket_total details basket)
           end.
Proof.
  destruct s as [token | tokens]; cbn [allocation_total expected_allocation]; intros H.
  - apply bind_Return_inv in H. destruct H as (a1 & Ha & H).
    apply bind_Return_inv in H. destruct H as (x & _ & H).
    apply share_spec in Ha. inversion H; subst. auto.
  - apply bind_Return_inv in H. destruct H as ([a1 t1] & Hf & H).
    apply basket_fold in Hf. inversion H; subst a tot.
    unfold basket_total. destruct Hf as [-> ->]. auto.
Qed.

(** What [outcome_entry] returns, case by case. *)
Lemma outcome_entry_no_quote (e : Entry.t) :
  Obj.get apys (Entry.apy e) = None ->
  outcome_entry allocs boost details apys e = Return None.
Proof.
  intros H. unfold outcome_entry. rewrite H.
  destruct (Obj.get (Details.ousdStrategies details) (Entry.strategyId e));
    reflexivity.
Qed.

Lemma outcome_entry_row (e : Entry.t) (info : Info.t) (q : Quote.t)
    (item : option Row.t) :
  Obj.get (Details.ousdStrategies details) (Entry.strategyId e) = Some info ->
  Obj.get apys (Entry.apy e) = Some q ->
  outcome_entry allocs boost details apys e = Return item ->
  exists r,
    item = Some r
    /\ Row.name r = Info.name info
    /\ Row.token r = Entry.token e
    /\ Row.allocation r
       = expected_allocation allocs details (Entry.strategyId e) (Entry.token e)
    /\ Row.total r = match Entry.token e with
                     | Single _ => None
                     | Basket basket => Some (basket_total details basket)
                     end
    /\ Row.base r = Quote.base q
    /\ Row.reward r = Quote.reward q
    /\ Row.strategy r = Quote.base q + Quote.reward q
    /\ Row.boosted r = Row.strategy r * boost
    /\ Row.weighted r = Row.allocation r * Row.boosted r
    /\ Row.allocationAmount r = Row.allocation r * grandTotal details.
Proof.
  intros Hs Hq. unfold outcome_entry. rewrite Hs, Hq. intros H.
  apply bind_Return_inv in H. destruct H as ([a tot] & Hat & H).
  apply allocation_total_spec in Hat. destruct Hat as [Ha Ht].
  inversion H; subst item. eexists. split; [ reflexivity | ].
  cbn. unfold grandTotal. subst a tot. repeat split; reflexivity.
Qed.

Lemma outcome_entry_Some_inv (e : Entry.t) (r : Row.t) :
  outcome_entry allocs boost details apys e = Return (Some r) ->
  exists info q,
    Obj.get (Details.ousdStrategies details) (Entry.strategyId e) = Some info
    /\ Obj.get apys (Entry.apy e) = Some q.
Proof.
  unfold outcome_entry.
  destruct (Obj.get (Details.ousdStrategies details) (Entry.strategyId e)) as [info | ];
    [ | discriminate ].
  destruct (Obj.get apys (Entry.apy e)) as [q | ]; [ eauto | discriminate ].
Qed.

Lemma project_of_inv (catalog : list Entry.t) (d : Data.t) :
  project_of allocs boost details apys catalog = Return d ->
  outcome_of allocs boost details apys catalog = Return (Data.outcome d)
  /\ Data.calculatedAPY d = calculatedAPY (Data.outcome d)
  /\ Data.totalStables d = Details.totalStables details.
Proof.
  unfold project_of. intros H.
  apply bind_Return_inv in H. destruct H as (out & Hout & H).
  inversion H; subst d. cbn. auto.
Qed.

End ProjectionFacts.

Lemma project_of_Forall2 (allocs : allocations) (boost : number)
    (details : Details.t) (apys : Obj.t Quote.t) (catalog : list Entry.t)
    (d : Data.t) :
  project_of allocs boost details apys catalog = Return d ->
  Forall2 (fun e item => outcome_entry allocs boost details apys e = Return item)
    catalog (Data.outcome d).
Proof.
  intros H. apply project_of_inv in H. destruct H as [H _].
  apply mapM_Forall2. exact H.
Qed.

(** ** Facts about the reduction to the blended APY *)

Section Reduction.

Local Open Scope float_scope.

Lemma add_neg_zero_r (x : number) : x + neg_zero = x.
Proof.
  apply Prim2SF_inj. rewrite add_spec, Prim2SF_neg_zero.
  unfold SF64add, SFadd.
  destruct (Prim2SF x) as [s | s | | s m e]; try reflexivity.
  destruct s; reflexivity.
Qed.

Lemma weighted_or0_not_neg_zero (item : option Row.t) :
  weighted_or0 item <> neg_zero.
Proof.
  destruct item as [r | ]; cbn [weighted_or0];
    [ apply or0_not_neg_zero | discriminate ].
Qed.

Lemma apy_fold_not_neg_zero (l : list (option Row.t)) :
  forall acc, acc <> neg_zero ->
    fold_left (fun acc item => acc + weighted_or0 item) l acc <> neg_zero.
Proof.
  induction l as [ | item l IH]; cbn [fold_left]; intros acc Hacc; [ assumption | ].
  apply IH. apply add_not_neg_zero. assumption.
Qed.

(** A [null] entry leaves the running sum as it is. *)
Lemma apy_fold_emitted (l : list (option Row.t)) :
  forall acc, acc <> neg_zero ->
    fold_left (fun acc item => acc + weighted_or0 item) l acc
    = fold_left (fun acc x => acc + or0 x) (map Row.weighted (emitted l)) acc.
Proof.
  induction l as [ | [r | ] l IH]; cbn [fold_left emitted map weighted_or0];
    intros acc Hacc.
  - reflexivity.
  - apply IH. apply add_not_neg_zero. assumption.
  - rewrite add_zero_r by assumption. apply IH. assumption.
Qed.

Lemma emitted_app (l1 l2 : list (option Row.t)) :
  emitted (l1 ++ l2) = emitted l1 ++ emitted l2.
Proof.
  induction l1 as [ | [r | ] l1 IH]; cbn [emitted app]; congruence.
Qed.

Lemma calculatedAPY_emitted (l : list (option Row.t)) :
  calculatedAPY l = sum_or0 (map Row.weighted (emitted l)).
Proof. apply apy_fold_emitted. discriminate. Qed.

Lemma calculatedAPY_skip_null (l1 l2 : list (option Row.t)) :
  calculatedAPY (l1 ++ None :: l2) = calculatedAPY (l1 ++ l2).
Proof.
  unfold calculatedAPY. rewrite !fold_left_app. cbn [fold_left weighted_or0].
  rewrite add_zero_r; [ reflexivity | ].
  apply apy_fold_not_neg_zero. discriminate.
Qed.

(** Without a [NaN] term, counting [NaN] as 0 changes nothing. *)
Lemma sum_or0_plain (xs : list number) :
  (forall x, In x xs -> x <> nan) ->
  forall acc, acc <> neg_zero ->
    fold_left (fun acc x => acc + or0 x) xs acc
    = fold_left (fun acc x => acc + x) xs acc.
Proof.
  induction xs as [ | x xs IH]; cbn [fold_left]; intros Hn acc Hacc; [ reflexivity | ].
  assert (Hx : acc + or0 x = acc + x).
  { unfold or0. destruct (falsy x) eqn:F; [ | reflexivity ].
    apply falsy_spec in F. destruct F as [-> | [-> | ->]].
    - exfalso. apply (Hn nan); [ left | ]; reflexivity.
    - reflexivity.
    - rewrite add_neg_zero_r, add_zero_r by assumption. reflexivity. }
  rewrite Hx. apply IH.
  - intros y Hy. apply Hn. right. assumption.
  - apply add_not_neg_zero. assumption.
Qed.

(** If every row's weighted value is falsy, the blended APY is exactly 0. *)
Lemma calculatedAPY_all_falsy (l : list (option Row.t)) :
  (forall r, In (Some r) l -> falsy (Row.weighted r) = true) ->
  calculatedAPY l = 0.
Proof.
  unfold calculatedAPY. induction l as [ | item l IH]; cbn [fold_left]; intros H;
    [ reflexivity | ].
  assert (Hi : weighted_or0 item = 0).
  { destruct item as [r | ]; cbn [weighted_or0]; [ | reflexivity ].
    apply or0_falsy. apply H. left. reflexivity. }
  rewrite Hi. change (0 + 0) with 0. apply IH.
  intros r Hr. apply H. right. assumption.
Qed.

End Reduction.

(** ** When a cycle completes *)

Lemma strategies_tokens_stable :
  forall e, In e strategies ->
    forall t, In t (scope_tokens (Entry.token e)) -> In t stables.
Proof.
  assert (H : forallb
                (fun e => forallb (includes stables) (scope_tokens (Entry.token e)))
                strategies = true) by reflexivity.
  intros e He t Ht. rewrite forallb_forall in H. specialize (H e He).
  rewrite forallb_forall in H. specialize (H t Ht).
  unfold includes in H. apply existsb_exists in H.
  destruct H as (t' & Hin & Heq). apply String.eqb_eq in Heq. subst t'. exact Hin.
Qed.

Section Completion.

Local Open Scope float_scope.

Variable allocs : allocations.
Variable boost : number.
Variable details : Details.t.
Variable apys : Obj.t Quote.t.

Hypothesis Hcomplete : complete allocs details.

Lemma basket_fold_total (strategyId : string) (tokens : list string) :
  (forall t, In t tokens -> In t stables) ->
  forall acc, exists acc',
    foldM
      (fun at_ currentToken =>
         s <- share allocs details strategyId currentToken ;;
         Return (fst at_ + s,
                 snd at_ + to_number
                   (Obj.get_u (Details.holdingsSummary details) currentToken)))
      tokens acc = Return acc'.
Proof.
  induction tokens as [ | tk tokens IH]; cbn [foldM]; intros Hin acc; [ eauto | ].
  destruct (Hcomplete tk (Hin tk (or_introl eq_refl))) as [Hrow _].
  destruct (share_total allocs details strategyId tk Hrow) as [s Hs].
  rewrite Hs. cbn [bind]. apply IH. intros t Ht. apply Hin. right. exact Ht.
Qed.

Lemma allocation_total_total (strategyId : string) (s : scope) :
  (forall t, In t (scope_tokens s) -> In t stables) ->
  exists at_, allocation_total allocs details strategyId s = Return at_.
Proof.
  destruct s as [token | tokens]; cbn [scope_tokens allocation_total]; intros Hin.
  - destruct (Hcomplete token (Hin token (or_introl eq_refl))) as [Hrow [x Hx]].
    destruct (share_total allocs details strategyId token Hrow) as [s Hs].
    rewrite Hs, Hx. cbn [bind expect]. eauto.
  - destruct (basket_fold_total strategyId tokens Hin (0, 0)) as [[a t] Hf].
    rewrite Hf. cbn [bind]. eauto.
Qed.

Lemma outcome_entry_total (e : Entry.t) :
  (forall t, In t (scope_tokens (Entry.token e)) -> In t stables) ->
  exists item, outcome_entry allocs boost details apys e = Return item.
Proof.
  intros Hin. unfold outcome_entry.
  destruct (Obj.get (Details.ousdStrategies details) (Entry.strategyId e)); [ | eauto ].
  destruct (Obj.get apys (Entry.apy e)); [ | eauto ].
  destruct (allocation_total_total (Entry.strategyId e) (Entry.token e) Hin)
    as [[a tot] Hat].
  rewrite Hat. cbn [bind]. eauto.
Qed.

Lemma project_returns : exists d, project allocs boost details apys = Return d.
Proof.
  unfold project, project_of, outcome_of.
  destruct (mapM_total (outcome_entry allocs boost details apys) strategies)
    as [out Hout].
  - apply Forall_forall. intros e He. apply outcome_entry_total.
    apply strategies_tokens_stable. exact He.
  - rewrite Hout. cbn [bind]. eauto.
Qed.

End Completion.

(** Every emitted row comes from a catalog entry with a snapshot entry and a
    quote, and has the fields [outcome_entry] computes. *)
Lemma emitted_row_inv (allocs : allocations) (boost : number)
    (details : Details.t) (apys : Obj.t Quote.t) (d : Data.t) (r : Row.t) :
  project allocs boost details apys = Return d ->
  In (Some r) (Data.outcome d) ->
  exists e,
    In e strategies
    /\ Row.allocation r
       = expected_allocation allocs details (Entry.strategyId e) (Entry.token e)
    /\ Row.boosted r = (Row.strategy r * boost)%float
    /\ Row.weighted r = (Row.allocation r * Row.boosted r)%float.
Proof.
  intros H Hr. apply project_of_Forall2 in H.
  destruct (Forall2_In_r _ _ _ H _ Hr) as (e & He & Hentry).
  destruct (outcome_entry_Some_inv _ _ _ _ _ _ Hentry) as (info & q & Hs & Hq).
  destruct (outcome_entry_row _ _ _ _ _ _ _ _ Hs Hq Hentry)
    as (r' & Hr' & _ & _ & Ha & _ & _ & _ & _ & Hb & Hw & _).
  inversion Hr'; subst r'. eauto.
Qed.

(** ** Non-negative amounts *)

Section NonNegative.

Local Open Scope Z_scope.

Lemma SF64add_nonneg (x y : spec_float) :
  valid_binary x = true -> valid_binary y = true ->
  nonnegSF x -> nonnegSF y -> nonnegSF (SF64add x y).
Proof.
  intros Vx Vy. unfold SF64add, SFadd.
  destruct x as [sx | sx | | sx mx ex], y as [sy | sy | | sy my ey];
    cbn [nonnegSF]; intros Hx Hy; subst; try tauto; try reflexivity.
  - destruct sx, sy; exact I.
  - apply valid_finite_emin in Vx. apply valid_finite_emin in Vy.
    assert (Hz : emin <= Z.min ex ey) by lia.
    cbn [cond_Zopp]. rewrite <- Pos2Z.inj_add. cbn [binary_normalize].
    destruct (binary_round_shape false
                (fst (shl_align mx ex (Z.min ex ey)) + fst (shl_align my ey (Z.min ex ey)))
                (Z.min ex ey) Hz) as [-> | (m' & e' & ->)]; reflexivity.
Qed.

Lemma nonneg_spec (x : number) : nonneg x = true <-> nonnegSF (Prim2SF x).
Proof.
  unfold nonneg. rewrite leb_spec, Prim2SF_zero. unfold SFleb, SFcompare.
  destruct (Prim2SF x) as [s | s | | s m e]; cbn [nonnegSF];
    try destruct s; split; intros H; try reflexivity; try exact I;
    try discriminate; try tauto.
Qed.

Lemma add_nonneg (x y : number) :
  nonneg x = true -> nonneg y = true -> nonneg (x + y)%float = true.
Proof.
  rewrite !nonneg_spec, add_spec. apply SF64add_nonneg; apply Prim2SF_valid.
Qed.

(** A sum of two non-negative numbers is a zero only if both are. *)
Lemma add_nonneg_zero_inv (x y : number) :
  nonneg x = true -> nonneg y = true -> is_zero (x + y)%float = true ->
  is_zero x = true /\ is_zero y = true.
Proof.
  rewrite !nonneg_spec. intros Hx Hy Hz.
  apply is_zero_spec in Hz.
  assert (E : exists s, SF64add (Prim2SF x) (Prim2SF y) = S754_zero s).
  { rewrite <- add_spec. destruct Hz as [-> | ->]; eexists; reflexivity. }
  destruct E as [s E].
  apply SF64add_zero_inv in E; try apply Prim2SF_valid.
  destruct E as [(sx & sy & Ex & Ey & _) | (sx & mx & ex & sy & my & ey & Ex & Ey & Hne & _)].
  - apply of_SF_zero in Ex, Ey. subst x y. destruct sx, sy; split; reflexivity.
  - rewrite Ex in Hx. rewrite Ey in Hy. cbn [nonnegSF] in Hx, Hy. congruence.
Qed.

Lemma or0_nonneg (x : number) : nonneg x = true -> nonneg (or0 x) = true.
Proof. unfold or0. destruct (falsy x); [ reflexivity | auto ]. Qed.

End NonNegative.

(** ** Invariants of [processStrategies] *)

Section HoldingsInvariant.

Local Open Scope float_scope.

(** [Q] holds of every stored total as soon as it holds of [a + h] for every
    amount [h] satisfying [H] and every [a] that is 0 or a truthy stored total. *)
Variable Q : number -> Prop.
Variable H : number -> Prop.

Hypothesis Q_step :
  forall a h, (a = 0 \/ (Q a /\ falsy a = false)) -> H h -> Q (a + h).

Lemma add_holding_inv (holdings acc : Obj.t number) (token : string) :
  all_values Q acc ->
  H (to_number (Obj.get holdings token)) ->
  all_values Q (add_holding holdings acc token).
Proof.
  intros Hacc Hh k x. unfold add_holding.
  destruct (String.eqb_spec token k) as [<- | Hk].
  - rewrite ObjFacts.get_set_eq. intros E. inversion E; subst x. clear E.
    apply Q_step; [ | exact Hh ].
    destruct (Obj.get acc token) as [y | ] eqn:Ey.
    + destruct (falsy y) eqn:Fy.
      * rewrite ObjFacts.get_set_eq. left. reflexivity.
      * rewrite Ey. right. split; [ exact (Hacc _ _ Ey) | exact Fy ].
    + rewrite ObjFacts.get_set_eq. left. reflexivity.
  - rewrite ObjFacts.get_set_neq by assumption.
    destruct (Obj.get acc token) as [y | ]; [ destruct (falsy y) | ];
      rewrite ?ObjFacts.get_set_neq by assumption; apply Hacc.
Qed.

Lemma add_holdings_inv (holdings : Obj.t number) (tokens : list string) :
  (forall t, In t tokens -> H (to_number (Obj.get holdings t))) ->
  forall acc, all_values Q acc ->
    all_values Q (fold_left (add_holding holdings) tokens acc).
Proof.
  induction tokens as [ | t tokens IH]; cbn [fold_left]; intros Hh acc Hacc;
    [ assumption | ].
  apply IH.
  - intros t' Ht'. apply Hh. right. exact Ht'.
  - apply add_holding_inv; [ assumption | ]. apply Hh. left. reflexivity.
Qed.

Lemma processStrategies_fold_inv (data : snapshot) (keys : list string) :
  all_amounts H data ->
  forall acc totals,
    all_values Q acc ->
    foldM
      (fun acc key =>
         holdings <- expect (match Obj.get data key with
                             | Some info => Info.holdings info
                             | None => None
                             end) ;;
         Return (fold_left (add_holding holdings) (Obj.keys holdings) acc))
      keys acc = Return totals ->
    all_values Q totals.
Proof.
  intros Hdata. induction keys as [ | key keys IH]; cbn [foldM]; intros acc totals Hacc E.
  - inversion E; subst. exact Hacc.
  - apply bind_Return_inv in E. destruct E as (acc' & E1 & E).
    apply bind_Return_inv in E1. destruct E1 as (holdings & Eh & E1).
    inversion E1; subst acc'. clear E1.
    refine (IH _ _ _ E). apply add_holdings_inv; [ | exact Hacc ].
    intros t Ht. destruct (ObjFacts.get_in_keys _ _ Ht) as [x Hx]. rewrite Hx.
    cbn [to_number].
    destruct (Obj.get data key) as [info | ] eqn:Ei; [ | discriminate ].
    destruct (Info.holdings info) as [h | ] eqn:Ehh; [ | discriminate ].
    inversion Eh; subst h. exact (Hdata _ _ _ _ _ Ei Ehh Hx).
Qed.

Lemma processStrategies_inv (data : snapshot) (totals : Obj.t number) :
  all_amounts H data -> processStrategies data = Return totals ->
  all_values Q totals.
Proof.
  intros Hdata E. unfold processStrategies in E.
  refine (processStrategies_fold_inv data _ Hdata _ _ _ E).
  intros k x Hk. discriminate.
Qed.

End HoldingsInvariant.


(** Non-negative amounts give non-negative per-asset totals. *)
Lemma totals_nonneg (data : snapshot) (totals : Obj.t number) :
  all_amounts (fun x => nonneg x = true) data ->
  processStrategies data = Return totals ->
  all_values (fun x => nonneg x = true) totals.
Proof.
  apply (processStrategies_inv (fun x => nonneg x = true) (fun x => nonneg x = true)).
  intros a h [-> | [Ha _]] Hh; apply add_nonneg; auto.
Qed.

(** What [fetchOUSDDetails] returns. *)
Lemma fetchOUSDDetails_inv (fetched : snapshot) (d : Details.t) :
  fetchOUSDDetails fetched = Return d ->
  processStrategies (Obj.delete fetched "vault_holding")
  = Return (Details.totalHoldings d)
  /\ Details.ousdStrategies d = Obj.delete fetched "vault_holding"
  /\ Details.totalStables d
     = (0 + or0u (Obj.get (Details.totalHoldings d) "DAI")
          + or0u (Obj.get (Details.totalHoldings d) "USDT")
          + or0u (Obj.get (Details.totalHoldings d) "USDC"))%float
  /\ (forall t, In t stables ->
        Obj.get_u (Details.holdingsSummary d) t
        = Obj.get (Details.totalHoldings d) t).
Proof.
  unfold fetchOUSDDetails. intros E.
  apply bind_Return_inv in E. destruct E as (totals & Et & E).
  inversion E; subst d. clear E. cbn.
  repeat split; try assumption.
  intros t [<- | [<- | [<- | []]]]; reflexivity.
Qed.


(** ** The normalizers on incomplete responses *)

Section NormalizerFacts.

Variable string_to_number : string -> number.

(** Only recognized symbols get a quote from [processAAVE]. *)
Lemma processAAVE_keys (resp : Aave.response) (out : Obj.t Quote.t)
    (k : string) (q : Quote.t) :
  processAAVE string_to_number resp = Return out ->
  Obj.get out k = Some q -> In k (Obj.keys aaveTokens).
Proof.
  unfold processAAVE. intros E.
  apply bind_Return_inv in E. destruct E as (items & _ & E). cbv zeta in E.
  apply foldM_expect_Return in E. destruct E as (reserves & _ & ->).
  assert (G : forall acc,
             (forall k q, Obj.get acc k = Some q -> In k (Obj.keys aaveTokens)) ->
             forall k q,
               Obj.get
                 (fold_left
                    (fun acc r =>
                       match Aave.symbol r with
                       | Some symbol =>
                           if includes (Obj.keys aaveTokens) symbol then
                             Obj.set acc symbol
                               {| Quote.base := Number string_to_number (Aave.liquidityRate r);
                                  Quote.reward :=
                                    Number string_to_number
                                      (or_zero (Aave.aIncentivesAPY r)) |}
                           else acc
                       | None => acc
                       end)
                    reserves acc) k = Some q ->
               In k (Obj.keys aaveTokens)).
  { induction reserves as [ | r reserves IH]; cbn [fold_left]; intros acc Hacc;
      [ exact Hacc | ].
    apply IH. destruct (Aave.symbol r) as [symbol | ]; [ | exact Hacc ].
    destruct (includes (Obj.keys aaveTokens) symbol) eqn:Ei; [ | exact Hacc ].
    intros k' q'. destruct (String.eqb_spec symbol k') as [<- | Hne].
    - intros _. unfold includes in Ei. apply existsb_exists in Ei.
      destruct Ei as (s & Hin & Heq). apply String.eqb_eq in Heq. subst s. exact Hin.
    - rewrite ObjFacts.get_set_neq by assumption. apply Hacc. }
  apply G. intros k' q' H. discriminate.
Qed.

End NormalizerFacts.

(** ** Division by a zero total *)

Section ZeroTotals.

Local Open Scope float_scope.

Lemma nan_or_infinite_add (x y : number) :
  nan_or_infinite x -> nan_or_infinite y -> nan_or_infinite (x + y).
Proof.
  unfold nan_or_infinite.
  intros [-> | [-> | ->]] [-> | [-> | ->]];
    first [ left; reflexivity | right; left; reflexivity | right; right; reflexivity ].
Qed.

Lemma nan_or_infinite_zero_add (x : number) :
  nan_or_infinite x -> nan_or_infinite (0 + x).
Proof.
  unfold nan_or_infinite.
  intros [-> | [-> | ->]];
    first [ left; reflexivity | right; left; reflexivity | right; right; reflexivity ].
Qed.

Lemma nan_or_infinite_fold (f : string -> number) (tokens : list string) :
  (forall t, In t tokens -> nan_or_infinite (f t)) ->
  forall acc, nan_or_infinite acc ->
    nan_or_infinite (fold_left (fun acc t => acc + f t) tokens acc).
Proof.
  induction tokens as [ | t tokens IH]; cbn [fold_left]; intros Hf acc Hacc;
    [ assumption | ].
  apply IH.
  - intros t' Ht'. apply Hf. right. exact Ht'.
  - apply nan_or_infinite_add; [ assumption | ]. apply Hf. left. reflexivity.
Qed.

Lemma nan_fold (f : string -> number) (tokens : list string) :
  (forall t, In t tokens -> f t = nan) ->
  fold_left (fun acc t => acc + f t) tokens nan = nan.
Proof.
  induction tokens as [ | t tokens IH]; cbn [fold_left]; intros Hf; [ reflexivity | ].
  rewrite add_nan_l. apply IH. intros t' Ht'. apply Hf. right. exact Ht'.
Qed.

Variable allocs : allocations.
Variable details : Details.t.

Hypothesis Hzero : is_zero (grandTotal details) = true.

(** Over a grand total of 0 no allocation is 0 or finite. *)
Lemma expected_allocation_zero_total (strategyId : string) (s : scope) :
  scope_tokens s <> [] ->
  nan_or_infinite (expected_allocation allocs details strategyId s).
Proof.
  destruct s as [token | tokens]; cbn [expected_allocation scope_tokens]; intros Hne.
  - apply div_by_zero. exact Hzero.
  - destruct tokens as [ | t tokens]; [ congruence | ]. cbn [fold_left].
    apply (nan_or_infinite_fold
             (fun ai => matrix_cell allocs ai strategyId * perAssetTotal details ai
                        / grandTotal details)).
    + intros t' _. apply div_by_zero. exact Hzero.
    + apply nan_or_infinite_zero_add. apply div_by_zero. exact Hzero.
Qed.

(** If moreover the per-asset totals are zeros (or missing), it is NaN. *)
Lemma expected_allocation_zero_totals (strategyId : string) (s : scope) :
  scope_tokens s <> [] ->
  (forall t, In t (scope_tokens s) -> falsy (perAssetTotal details t) = true) ->
  expected_allocation allocs details strategyId s = nan.
Proof.
  assert (Hterm : forall t,
             falsy (perAssetTotal details t) = true ->
             matrix_cell allocs t strategyId * perAssetTotal details t
             / grandTotal details = nan).
  { intros t Ht. apply div_falsy_zero; [ | exact Hzero ].
    apply mul_falsy_r. exact Ht. }
  destruct s as [token | tokens]; cbn [expected_allocation scope_tokens];
    intros Hne Hf.
  - apply Hterm. apply Hf. left. reflexivity.
  - destruct tokens as [ | t tokens]; [ congruence | ]. cbn [fold_left].
    rewrite Hterm by (apply Hf; left; reflexivity).
    rewrite add_nan_r.
    apply (nan_fold
             (fun ai => matrix_cell allocs ai strategyId * perAssetTotal details ai
                        / grandTotal details)).
    intros t' Ht'. apply Hterm. apply Hf. right. exact Ht'.
Qed.

End ZeroTotals.

Lemma strategies_scopes_nonempty :
  forall e, In e strategies -> scope_tokens (Entry.token e) <> [].
Proof.
  assert (H : forallb
                (fun e => match scope_tokens (Entry.token e) with
                          | [] => false
                          | _ :: _ => true
                          end)
                strategies = true) by reflexivity.
  intros e He. rewrite forallb_forall in H. specialize (H e He).
  destruct (scope_tokens (Entry.token e)); [ discriminate | congruence ].
Qed.

(** With non-negative amounts, a grand total of 0 means that every
    stablecoin's total is a zero or missing. *)
Lemma zero_grand_total_zero_totals (fetched : snapshot) (d : Details.t) :
  fetchOUSDDetails fetched = Return d ->
  all_amounts (fun x => nonneg x = true) (Obj.delete fetched "vault_holding") ->
  is_zero (grandTotal d) = true ->
  forall t, In t stables -> falsy (perAssetTotal d t) = true.
Proof.
  intros E Hamt Hz. apply fetchOUSDDetails_inv in E.
  destruct E as (Ep & _ & Et & _).
  pose proof (totals_nonneg _ _ Hamt Ep) as Hnn.
  assert (Hk : forall t,
             nonneg (or0u (Obj.get (Details.totalHoldings d) t)) = true
             /\ (is_zero (or0u (Obj.get (Details.totalHoldings d) t)) = true ->
                 falsy (perAssetTotal d t) = true)).
  { intros t. unfold perAssetTotal.
    destruct (Obj.get (Details.totalHoldings d) t) as [x | ] eqn:Ex;
      cbn [or0u to_number]; [ | split; reflexivity ].
    split; [ apply or0_nonneg; exact (Hnn _ _ Ex) | ].
    unfold or0. destruct (falsy x) eqn:F; [ reflexivity | ].
    intros Hx. unfold falsy in F. rewrite Hx, orb_true_r in F. discriminate. }
  unfold grandTotal in Hz. rewrite Et in Hz.
  destruct (Hk "DAI") as [Nd Zd], (Hk "USDT") as [Nt Zt], (Hk "USDC") as [Nc Zc].
  assert (N0 : nonneg 0%float = true) by reflexivity.
  pose proof (add_nonneg _ _ N0 Nd) as N1.
  pose proof (add_nonneg _ _ N1 Nt) as N2.
  apply add_nonneg_zero_inv in Hz; [ | assumption | assumption ].
  destruct Hz as [Hz Hc].
  apply add_nonneg_zero_inv in Hz; [ | assumption | assumption ].
  destruct Hz as [Hz Ht].
  apply add_nonneg_zero_inv in Hz; [ | assumption | assumption ].
  destruct Hz as [_ Hd].
  intros t [<- | [<- | [<- | []]]]; auto.
Qed.

Lemma get_In {V : Type} (o : Obj.t V) (k : string) (v : V) :
  Obj.get o k = Some v -> In (k, v) o.
Proof.
  induction o as [ | [k' v'] o IH]; cbn [Obj.get In]; [ discriminate | ].
  destruct (String.eqb_spec k' k) as [-> | _].
  - intros E. inversion E. left. reflexivity.
  - intros E. right. auto.
Qed.

Lemma In_delete {V : Type} (o : Obj.t V) (k : string) (kv : string * V) :
  In kv (Obj.delete o k) -> In kv o.
Proof.
  induction o as [ | [k' v'] o IH]; cbn [Obj.delete In]; [ tauto | ].
  destruct (String.eqb k' k); cbn [In]; tauto.
Qed.

Lemma amounts_nonneg_sound (fetched : snapshot) (k : string) :
  amounts_nonneg fetched = true ->
  all_amounts (fun x => nonneg x = true) (Obj.delete fetched k).
Proof.
  unfold amounts_nonneg. rewrite forallb_forall.
  intros H key info holdings t x Hk Hh Ht.
  apply get_In, In_delete in Hk. specialize (H _ Hk). cbn [snd] in H.
  rewrite Hh, forallb_forall in H. apply get_In in Ht.
  exact (H _ Ht).
Qed.

(** ** Property order does not matter *)

(** An object with unique keys reads the same in any property order. *)
Lemma same_props_perm {V : Type} (a b : Obj.t V) :
  Permutation a b -> NoDup (Obj.keys a) -> same_props a b.
Proof.
  unfold same_props.
  induction 1 as [ | [k v] a b Hp IH | [k1 v1] [k2 v2] a | a b c Hab IHab Hbc IHbc];
    intros Hnd q.
  - reflexivity.
  - cbn [Obj.get]. cbn [Obj.keys map fst] in Hnd. inversion Hnd; subst.
    destruct (String.eqb k q); [ reflexivity | ]. apply IH. assumption.
  - cbn [Obj.get]. cbn [Obj.keys map fst] in Hnd. inversion Hnd as [ | ? ? Hni _]; subst.
    destruct (String.eqb_spec k1 q) as [-> | ], (String.eqb_spec k2 q) as [-> | ];
      try reflexivity.
    exfalso. apply Hni. left. reflexivity.
  - rewrite IHab by assumption. apply IHbc.
    unfold Obj.keys in *. apply (Permutation_NoDup (Permutation_map fst Hab) Hnd).
Qed.

Lemma same_props_refl {V : Type} (a : Obj.t V) : same_props a a.
Proof. intros k. reflexivity. Qed.

Lemma same_matrix_refl (a : allocations) : same_matrix a a.
Proof.
  intros t. destruct (Obj.get a t); [ apply same_props_refl | exact I ].
Qed.

Lemma same_details_refl (d : Details.t) : same_details d d.
Proof. repeat split. Qed.

Section SameInputs.

Local Open Scope float_scope.

Variables allocs allocs' : allocations.
Variable boost : number.
Variables details details' : Details.t.
Variables apys apys' : Obj.t Quote.t.

Hypothesis Hallocs : same_matrix allocs allocs'.
Hypothesis Hdetails : same_details details details'.
Hypothesis Hapys : same_props apys apys'.

Lemma share_same (strategyId token : string) :
  share allocs details strategyId token = share allocs' details' strategyId token.
Proof.
  destruct Hdetails as (Hth & _ & Hts & _).
  unfold share. specialize (Hallocs token).
  destruct (Obj.get allocs token) as [row | ], (Obj.get allocs' token) as [row' | ];
    try contradiction; cbn [expect bind]; [ | reflexivity ].
  rewrite (Hallocs strategyId), (Hth token), Hts. reflexivity.
Qed.

Lemma get_u_same (token : string) :
  Obj.get_u (Details.holdingsSummary details) token
  = Obj.get_u (Details.holdingsSummary details') token.
Proof.
  destruct Hdetails as (_ & _ & _ & Hhs). unfold Obj.get_u. rewrite (Hhs token).
  reflexivity.
Qed.

Lemma allocation_total_same (strategyId : string) (s : scope) :
  allocation_total allocs details strategyId s
  = allocation_total allocs' details' strategyId s.
Proof.
  destruct s as [token | tokens]; cbn [allocation_total].
  - rewrite share_same, get_u_same. reflexivity.
  - f_equal. apply foldM_ext. intros at_ t.
    rewrite share_same, get_u_same. reflexivity.
Qed.

Lemma outcome_entry_same (e : Entry.t) :
  outcome_entry allocs boost details apys e
  = outcome_entry allocs' boost details' apys' e.
Proof.
  unfold outcome_entry. rewrite allocation_total_same.
  destruct Hdetails as (_ & Hs & Hts & _).
  rewrite (Hs (Entry.strategyId e)), (Hapys (Entry.apy e)), Hts. reflexivity.
Qed.

Lemma outcome_of_same (catalog : list Entry.t) :
  outcome_of allocs boost details apys catalog
  = outcome_of allocs' boost details' apys' catalog.
Proof. apply mapM_ext. exact outcome_entry_same. Qed.

End SameInputs.

(** * The claims *)

(** ** C1 *)

(** C1, as amended.  Whenever a cycle completes, every catalog entry that has
    a snapshot entry and a normalized quote has its row at the entry's place,
    and that row's allocation is the matrix cell times the per-asset total
    over the grand total (for a basket strategy, these quotients added up
    from 0 over the basket's assets in order), its strategy rate is base
    plus reward, its boosted rate the strategy rate
    times the boost, its weighted value allocation times boosted rate, and
    its allocation amount allocation times the grand total.  The blended APY
    is the sum of the weighted values of the emitted rows in which a NaN
    weighted value counts as 0; it is their plain sum when none is NaN. *)
Theorem rows_follow_formulas_and_apy_sums_weighted
    (allocs : allocations) (boost : number) (details : Details.t)
    (apys : Obj.t Quote.t) (d : Data.t) :
  project allocs boost details apys = Return d ->
  (forall i e info q,
      nth_error strategies i = Some e ->
      Obj.get (Details.ousdStrategies details) (Entry.strategyId e) = Some info ->
      Obj.get apys (Entry.apy e) = Some q ->
      exists r,
        nth_error (Data.outcome d) i = Some (Some r)
        /\ Row.allocation r
           = expected_allocation allocs details (Entry.strategyId e) (Entry.token e)
        /\ Row.strategy r = (Quote.base q + Quote.reward q)%float
        /\ Row.boosted r = (Row.strategy r * boost)%float
        /\ Row.weighted r = (Row.allocation r * Row.boosted r)%float
        /\ Row.allocationAmount r = (Row.allocation r * grandTotal details)%float)
  /\ Data.calculatedAPY d = sum_or0 (map Row.weighted (emitted (Data.outcome d)))
  /\ ((forall r, In r (emitted (Data.outcome d)) -> Row.weighted r <> nan) ->
      Data.calculatedAPY d = sum (map Row.weighted (emitted (Data.outcome d)))).
Proof.
  intros H. pose proof (project_of_Forall2 _ _ _ _ _ _ H) as HF.
  apply project_of_inv in H. destruct H as (_ & Hapy & _).
  split; [ | split ].
  - intros i e info q Hi Hs Hq.
    destruct (Forall2_nth_error _ _ _ HF i e Hi) as (item & Hitem & He).
    destruct (outcome_entry_row _ _ _ _ _ _ _ _ Hs Hq He)
      as (r & -> & _ & _ & Ha & _ & _ & _ & Hst & Hb & Hw & Hamt).
    exists r. auto 10.
  - rewrite Hapy. apply calculatedAPY_emitted.
  - intros Hn. rewrite Hapy, calculatedAPY_emitted. unfold sum_or0, sum.
    apply sum_or0_plain; [ | discriminate ].
    intros x Hx. apply in_map_iff in Hx. destruct Hx as (r & <- & Hr). auto.
Qed.

(** The sample cycle: the row of the OUSD meta-strategy (a basket) and the
    blended APY. *)
Lemma rows_follow_formulas_and_apy_sums_weighted_witness :
  project Sample.seeded 2%float Sample.details Sample.apys = Return sample_data
  /\ (exists r,
        nth_error (Data.outcome sample_data) 8 = Some (Some r)
        /\ Row.allocation r = 0.25%float
        /\ Row.weighted r = 0.0625%float)
  /\ Data.calculatedAPY sample_data
     = sum (map Row.weighted (emitted (Data.outcome sample_data))).
Proof.
  assert (H : project Sample.seeded 2%float Sample.details Sample.apys
              = Return sample_data) by (vm_compute; reflexivity).
  destruct (rows_follow_formulas_and_apy_sums_weighted _ _ _ _ _ H)
    as (Hrows & _ & Hsum).
  split; [ exact H | split ].
  - destruct (Hrows 8%nat _ _ _ eq_refl eq_refl eq_refl)
      as (r & Hr & Ha & Hst & Hb & Hw & _).
    exists r. split; [ exact Hr | ].
    rewrite Hw, Hb, Hst, Ha. split; vm_compute; reflexivity.
  - apply Hsum. intros r Hr Hnan.
    apply (f_equal is_nan) in Hnan.
    vm_compute in Hr.
    repeat (destruct Hr as [<- | Hr]; [ vm_compute in Hnan; discriminate | ]).
    exact Hr.
Defined.

(** C1 as it is stated fails in two places.  Where a weighted value is NaN:
    with every holding 0 the grand total is 0, each row's weighted value is
    NaN, and [item?.weighted || 0] adds 0 for it, so the blended APY is 0
    while the sum of the weighted values is NaN.  And in the basket formula
    read as one division of the sum: with the 3pool strategy holding all of
    1 DAI, 4 USDC and 1 USDT, its allocation is 1/6 + 4/6 + 1/6, which is
    0.9999999999999999 in binary64, while (1 + 4 + 1) / 6 is 1. *)
Lemma plain_sum_and_single_division_differ_from_code :
  (exists d,
     project initialAllocations initialBoostMultiplier Sample.details_empty
       Sample.apys = Return d
     /\ Data.calculatedAPY d = 0%float
     /\ sum (map Row.weighted (emitted (Data.outcome d))) = nan
     /\ Data.calculatedAPY d <> sum (map Row.weighted (emitted (Data.outcome d))))
  /\ (exists d r,
        project seeded_one_basket initialBoostMultiplier details_one_basket
          Sample.apys = Return d
        /\ nth_error (Data.outcome d) 6 = Some (Some r)
        /\ Row.allocation r = 0x1.fffffffffffffp-1%float
        /\ quotient_of_sum seeded_one_basket details_one_basket
             "threepoolstrat_holding" ["DAI"; "USDC"; "USDT"] = 1%float
        /\ Row.allocation r
           <> quotient_of_sum seeded_one_basket details_one_basket
                "threepoolstrat_holding" ["DAI"; "USDC"; "USDT"]).
Proof.
  split.
  - eexists. split; [ vm_compute; reflexivity | ].
    cbn [Data.calculatedAPY Data.outcome].
    split; [ vm_compute; reflexivity | ].
    split; [ vm_compute; reflexivity | ].
    vm_compute. intros H. apply (f_equal is_nan) in H. vm_compute in H. discriminate.
  - eexists. eexists. split; [ vm_compute; reflexivity | ].
    split; [ reflexivity | ].
    cbn [Row.allocation].
    split; [ reflexivity | ].
    split; [ vm_compute; reflexivity | ].
    vm_compute. intros H. apply (f_equal (fun x => (x =? 1)%float)) in H.
    vm_compute in H. discriminate.
Qed.

(** ** C2 *)

(** C2.  A catalog entry whose quote key has no normalized quote gets [null]
    at its place in [outcome], so no row is emitted for it, and the emitted
    rows and the blended APY are those of the projection over the catalog
    without that entry. *)
Theorem missing_quote_omits_row
    (allocs : allocations) (boost : number) (details : Details.t)
    (apys : Obj.t Quote.t) (c1 c2 : list Entry.t) (e : Entry.t) (d : Data.t) :
  strategies = c1 ++ e :: c2 ->
  Obj.get apys (Entry.apy e) = None ->
  project allocs boost details apys = Return d ->
  nth_error (Data.outcome d) (List.length c1) = Some None
  /\ exists d',
       project_of allocs boost details apys (c1 ++ c2) = Return d'
       /\ emitted (Data.outcome d) = emitted (Data.outcome d')
       /\ Data.calculatedAPY d = Data.calculatedAPY d'.
Proof.
  intros Hcat Hq H. unfold project in H. rewrite Hcat in H.
  apply project_of_inv in H. destruct H as (Hout & Hapy & _).
  unfold outcome_of in Hout. apply mapM_app in Hout.
  destruct Hout as (o1 & o2' & H1 & H2 & Ho).
  cbn [mapM] in H2. rewrite (outcome_entry_no_quote _ _ _ _ _ Hq) in H2.
  cbn [bind] in H2.
  apply bind_Return_inv in H2. destruct H2 as (o2 & H2 & Hr).
  inversion Hr; subst o2'. clear Hr.
  split.
  - rewrite Ho, <- (mapM_length _ _ _ H1), nth_error_app2, Nat.sub_diag by lia.
    reflexivity.
  - unfold project_of, outcome_of. rewrite (mapM_app_intro _ _ _ _ _ H1 H2).
    cbn [bind]. eexists. split; [ reflexivity | ].
    cbn [Data.outcome Data.calculatedAPY]. rewrite Hapy, Ho. split.
    + rewrite !emitted_app. reflexivity.
    + apply calculatedAPY_skip_null.
Qed.

(** The sample cycle has no quote for [morphoAaveUSDT], the twelfth entry. *)
Lemma missing_quote_omits_row_witness :
  nth_error (Data.outcome sample_data) 11 = Some None
  /\ exists d',
       project_of Sample.seeded 2%float Sample.details Sample.apys
         (firstn 11 strategies ++ skipn 12 strategies) = Return d'
       /\ emitted (Data.outcome sample_data) = emitted (Data.outcome d')
       /\ Data.calculatedAPY sample_data = Data.calculatedAPY d'.
Proof.
  apply (missing_quote_omits_row Sample.seeded 2%float Sample.details Sample.apys
           (firstn 11 strategies) (skipn 12 strategies)
           (Entry.Build_t "morpho_aave_strat" (Single "USDT") "morphoAaveUSDT")).
  - reflexivity.
  - reflexivity.
  - vm_compute. reflexivity.
Defined.

(** ** C3 *)

(** C3, as amended.  The seeding divides each holding by the per-asset total
    as it is.  For an asset whose per-asset total is 0, the baseline of every
    strategy is that quotient, which is never 0: it is NaN when the strategy
    holds 0 of the asset (or does not list it), and NaN or an infinity
    whatever it holds.  No error is raised as long as the seven strategies
    and their holdings are in the snapshot. *)
Theorem baseline_of_zero_total_is_nan (details : Details.t) (token : string) :
  In token ["DAI"; "USDC"; "USDT"] ->
  is_zero (perAssetTotal details token) = true ->
  (forall s, In s strategyIds -> exists h, holdings_of details s = Return h) ->
  exists seeded,
    baseline details = Return seeded
    /\ forall s h,
         In s strategyIds -> holdings_of details s = Return h ->
         exists c,
           cell seeded token s = Some c
           /\ c = (to_number (Obj.get h token) / perAssetTotal details token)%float
           /\ nan_or_infinite c
           /\ (falsy (to_number (Obj.get h token)) = true -> c = nan).
Proof.
  intros Htok Hz Hall.
  destruct (Hall "aavestrat_holding") as [h1 E1]; [ cbn; tauto | ].
  destruct (Hall "compstrat_holding") as [h2 E2]; [ cbn; tauto | ].
  destruct (Hall "threepoolstrat_holding") as [h3 E3]; [ cbn; tauto | ].
  destruct (Hall "lusd_metastrat") as [h4 E4]; [ cbn; tauto | ].
  destruct (Hall "ousd_metastrat") as [h5 E5]; [ cbn; tauto | ].
  destruct (Hall "morpho_aave_strat") as [h6 E6]; [ cbn; tauto | ].
  destruct (Hall "morpho_strat") as [h7 E7]; [ cbn; tauto | ].
  eexists. split.
  - unfold baseline. cbn [mapM strategyIds].
    rewrite E1, E2, E3, E4, E5, E6, E7. cbn [bind]. reflexivity.
  - intros s h Hs Hh.
    assert (Hc : forall c,
               c = (to_number (Obj.get h token) / perAssetTotal details token)%float ->
               nan_or_infinite c
               /\ (falsy (to_number (Obj.get h token)) = true -> c = nan)).
    { intros c ->. split; [ apply div_by_zero; exact Hz | ].
      intros F. apply div_falsy_zero; assumption. }
    cbn in Hs, Htok.
    destruct Hs as [<- | [<- | [<- | [<- | [<- | [<- | [<- | []]]]]]]];
      rewrite ?E1, ?E2, ?E3, ?E4, ?E5, ?E6, ?E7 in Hh; inversion Hh; subst h;
      destruct Htok as [<- | [<- | [<- | []]]];
      (eexists; split; [ reflexivity | ]; split; [ reflexivity | ];
       apply Hc; reflexivity).
Qed.

(** The sample strategies holding nothing: the DAI baseline of Aave. *)
Lemma baseline_of_zero_total_is_nan_witness :
  exists seeded,
    baseline Sample.details_empty = Return seeded
    /\ cell seeded "DAI" "aavestrat_holding" = Some nan.
Proof.
  destruct (baseline_of_zero_total_is_nan Sample.details_empty "DAI")
    as (seeded & Hs & Hcells).
  - cbn. tauto.
  - reflexivity.
  - intros s Hs. cbn in Hs.
    destruct Hs as [<- | [<- | [<- | [<- | [<- | [<- | [<- | []]]]]]]];
      eexists; reflexivity.
  - exists seeded. split; [ exact Hs | ].
    destruct (Hcells "aavestrat_holding"
                [("DAI", 0%float); ("USDC", 0%float); ("USDT", 0%float)])
      as (c & Hc & _ & _ & Hnan).
    + cbn. tauto.
    + reflexivity.
    + rewrite Hc, Hnan; reflexivity.
Defined.

(** C3 as it is stated fails: with every strategy holding 0 DAI the
    per-asset total of DAI is 0 and the seeded DAI baseline of Aave is NaN,
    not 0. *)
Lemma baseline_of_zero_total_is_not_zero :
  fetchOUSDDetails Sample.fetched_empty = Return Sample.details_empty
  /\ Obj.get (Details.totalHoldings Sample.details_empty) "DAI" = Some 0%float
  /\ exists seeded,
       baseline Sample.details_empty = Return seeded
       /\ cell seeded "DAI" "aavestrat_holding" = Some nan
       /\ cell seeded "DAI" "aavestrat_holding" <> Some 0%float.
Proof.
  split; [ vm_compute; reflexivity | ].
  split; [ reflexivity | ].
  eexists. split; [ vm_compute; reflexivity | ].
  split; [ reflexivity | ].
  cbn. intros E. inversion E.
Qed.

(** ** C4 *)

(** C4, as amended.  When the grand total is 0, no emitted row has an
    allocation of 0: every allocation is NaN or an infinity.  With
    non-negative amounts every allocation is NaN and the blended APY is
    exactly 0.  No error is raised by the division: the projection returns
    whenever the matrix has a row and the holdings summary a value for each
    of the three stablecoins, and the whole cycle, seeding and projection,
    completes whenever in addition each of the seven strategies the seeding
    reads has its holdings in the snapshot.  When one of them has not, the
    seeding throws a TypeError and the cycle stops there. *)
Theorem zero_grand_total_gives_nan_allocations_and_zero_apy
    (fetched : snapshot) (details : Details.t) (allocs : allocations)
    (boost : number) (apys : Obj.t Quote.t) :
  fetchOUSDDetails fetched = Return details ->
  is_zero (grandTotal details) = true ->
  (forall d, project allocs boost details apys = Return d ->
     (forall r, In (Some r) (Data.outcome d) -> nan_or_infinite (Row.allocation r))
     /\ (amounts_nonneg fetched = true ->
         (forall r, In (Some r) (Data.outcome d) -> Row.allocation r = nan)
         /\ Data.calculatedAPY d = 0%float))
  /\ (complete allocs details ->
      exists d, project allocs boost details apys = Return d)
  /\ (complete allocs details ->
      (forall s, In s strategyIds -> exists h, holdings_of details s = Return h) ->
      exists seeded d,
        effect allocs boost details apys = (Some seeded, Return d))
  /\ (forall s,
        In s strategyIds ->
        holdings_of details s = Throw TypeError ->
        effect allocs boost details apys = (None, Throw TypeError)).
Proof.
  intros E Hz. split; [ | split; [ apply project_returns | split ] ].
  2: { intros Hc Hh. unfold effect, baseline.
       destruct (mapM_total
                   (fun s => h <- holdings_of details s ;; Return (s, h))
                   strategyIds) as [hs Hhs].
       { apply Forall_forall. intros s Hs. destruct (Hh s Hs) as [h Eh].
         rewrite Eh. cbn [bind]. eauto. }
       rewrite Hhs. cbn [bind].
       destruct (project_returns allocs boost details apys Hc) as [d Hd].
       rewrite Hd. eauto. }
  2: { intros s Hs Eh. unfold effect, baseline.
       assert (Hm : mapM (fun s => h <- holdings_of details s ;; Return (s, h))
                      strategyIds = Throw TypeError).
       { apply mapM_Throw_iff. exists s. split; [ exact Hs | ].
         rewrite Eh. reflexivity. }
       rewrite Hm. reflexivity. }
  intros d Hd. split.
  - intros r Hr.
    destruct (emitted_row_inv _ _ _ _ _ _ Hd Hr) as (e & He & -> & _).
    apply expected_allocation_zero_total; [ exact Hz | ].
    apply strategies_scopes_nonempty. exact He.
  - intros Hamt. apply (amounts_nonneg_sound _ "vault_holding") in Hamt.
    pose proof (zero_grand_total_zero_totals _ _ E Hamt Hz) as Hf.
    assert (Hnan : forall r, In (Some r) (Data.outcome d) -> Row.allocation r = nan).
    { intros r Hr.
      destruct (emitted_row_inv _ _ _ _ _ _ Hd Hr) as (e & He & -> & _).
      apply expected_allocation_zero_totals; [ exact Hz | | ].
      - apply strategies_scopes_nonempty. exact He.
      - intros t Ht. apply Hf. exact (strategies_tokens_stable e He t Ht). }
    split; [ exact Hnan | ].
    pose proof (project_of_inv _ _ _ _ _ _ Hd) as (_ & -> & _).
    apply calculatedAPY_all_falsy. intros r Hr.
    destruct (emitted_row_inv _ _ _ _ _ _ Hd Hr) as (e & _ & _ & _ & ->).
    apply mul_falsy_l. rewrite (Hnan r Hr). reflexivity.
Qed.

(** The sample strategies, every one holding nothing. *)
Lemma zero_grand_total_gives_nan_allocations_and_zero_apy_witness :
  exists seeded d,
    effect initialAllocations initialBoostMultiplier Sample.details_empty
      Sample.apys = (Some seeded, Return d)
    /\ (forall r, In (Some r) (Data.outcome d) -> Row.allocation r = nan)
    /\ Data.calculatedAPY d = 0%float.
Proof.
  assert (E : fetchOUSDDetails Sample.fetched_empty = Return Sample.details_empty)
    by (vm_compute; reflexivity).
  destruct (zero_grand_total_gives_nan_allocations_and_zero_apy
              Sample.fetched_empty Sample.details_empty initialAllocations
              initialBoostMultiplier Sample.apys E eq_refl)
    as (Hall & _ & Heff & _).
  destruct Heff as (seeded & d & Hd).
  - intros t Ht. cbn in Ht.
    destruct Ht as [<- | [<- | [<- | []]]]; split; eexists; reflexivity.
  - intros s Hs. cbn in Hs.
    destruct Hs as [<- | [<- | [<- | [<- | [<- | [<- | [<- | []]]]]]]];
      eexists; reflexivity.
  - exists seeded, d. split; [ exact Hd | ].
    apply Hall; [ | reflexivity ].
    unfold effect in Hd.
    destruct (baseline Sample.details_empty); inversion Hd. reflexivity.
Defined.

(** C4 as it is stated fails: with every holding 0 the grand total is 0 and
    the allocation of the first row is NaN, not 0. *)
Lemma zero_grand_total_allocation_is_nan :
  grandTotal Sample.details_empty = 0%float
  /\ exists d r,
       project initialAllocations initialBoostMultiplier Sample.details_empty
         Sample.apys = Return d
       /\ nth_error (Data.outcome d) 0 = Some (Some r)
       /\ Row.allocation r = nan
       /\ Row.allocation r <> 0%float.
Proof.
  split; [ reflexivity | ].
  eexists. eexists. split; [ vm_compute; reflexivity | ].
  split; [ reflexivity | ].
  cbn [Row.allocation]. split; [ reflexivity | ].
  intros E. apply (f_equal is_nan) in E. vm_compute in E. discriminate.
Qed.

(** ** C5 *)

(** C5.  The outcome is a function of what the inputs read as: two runs whose
    matrix, details and quotes have the same properties, in whatever
    property order, give the same outcome (or both throw) and the same
    blended APY.  The outcome follows the catalog: it has one place per
    catalog entry, and the item at place [i] is what the [i]-th entry of
    [strategies] yields, a row with that entry's token or [null]. *)
Theorem projection_is_deterministic_in_catalog_order
    (allocs allocs' : allocations) (boost : number)
    (details details' : Details.t) (apys apys' : Obj.t Quote.t) :
  same_matrix allocs allocs' ->
  same_details details details' ->
  same_props apys apys' ->
  outcome_of allocs boost details apys strategies
  = outcome_of allocs' boost details' apys' strategies
  /\ forall d,
       project allocs boost details apys = Return d ->
       (exists d',
          project allocs' boost details' apys' = Return d'
          /\ Data.outcome d' = Data.outcome d
          /\ Data.calculatedAPY d' = Data.calculatedAPY d)
       /\ List.length (Data.outcome d) = List.length strategies
       /\ forall i e,
            nth_error strategies i = Some e ->
            exists item,
              nth_error (Data.outcome d) i = Some item
              /\ outcome_entry allocs boost details apys e = Return item
              /\ (forall r, item = Some r -> Row.token r = Entry.token e).
Proof.
  intros Ha Hd Hq.
  pose proof (outcome_of_same _ _ boost _ _ _ _ Ha Hd Hq strategies) as Hsame.
  split; [ exact Hsame | ].
  intros d H. pose proof (project_of_Forall2 _ _ _ _ _ _ H) as HF.
  pose proof (project_of_inv _ _ _ _ _ _ H) as (Hout & Hapy & _).
  split; [ | split ].
  - unfold project, project_of. rewrite <- Hsame, Hout. cbn [bind].
    eexists. split; [ reflexivity | ]. cbn. auto.
  - apply (mapM_length _ _ _ Hout).
  - intros i e Hi.
    destruct (Forall2_nth_error _ _ _ HF i e Hi) as (item & Hitem & He).
    exists item. repeat split; try assumption.
    intros r ->.
    destruct (outcome_entry_Some_inv _ _ _ _ _ _ He) as (info & q & Hs & Hq').
    destruct (outcome_entry_row _ _ _ _ _ _ _ _ Hs Hq' He) as (r' & Hr' & _ & Ht & _).
    inversion Hr'; subst r'. exact Ht.
Qed.

(** The sample cycle against a run whose quotes object lists its properties
    in the reverse order. *)
Lemma projection_is_deterministic_in_catalog_order_witness :
  exists d',
    project Sample.seeded 2%float Sample.details (rev Sample.apys) = Return d'
    /\ Data.outcome d' = Data.outcome sample_data
    /\ Data.calculatedAPY d' = Data.calculatedAPY sample_data.
Proof.
  assert (Hq : same_props Sample.apys (rev Sample.apys)).
  { apply same_props_perm; [ apply Permutation_rev | ].
    assert (E : nodup string_dec (Obj.keys Sample.apys) = Obj.keys Sample.apys)
      by (vm_compute; reflexivity).
    rewrite <- E. apply NoDup_nodup. }
  destruct (projection_is_deterministic_in_catalog_order
              Sample.seeded Sample.seeded 2%float Sample.details Sample.details
              Sample.apys (rev Sample.apys)
              (same_matrix_refl _) (same_details_refl _) Hq) as [_ H].
  apply (H sample_data). vm_compute. reflexivity.
Defined.

(** ** C6 *)




(** ** C7 *)



(** ** C8 *)

(** C8 at its failing inputs.  A recognized AAVE reserve without
    [liquidityRate] gets the base rate NaN, not 0 (its missing reward does
    default to 0); a recognized Compound cToken without [supply_rate] makes
    [processCompound] throw, and one without the reward's [value] gets the
    reward NaN; a DefiLlama chart without data points makes
    [processDefiLlama] throw, while a point without rates gets 0 and 0. *)
Theorem normalizers_on_absent_fields (string_to_number : string -> number) :
  processAAVE string_to_number aave_without_base
  = Return [("ADAI", {| Quote.base := nan; Quote.reward := 0%float |})]
  /\ processCompound string_to_number compound_without_base = Throw TypeError
  /\ processCompound string_to_number compound_without_reward_value
     = Return [("cDAI", {| Quote.base := 0.03125%float; Quote.reward := nan |})]
  /\ processDefiLlama string_to_number "convex3pool" llama_without_points
     = Throw TypeError
  /\ processDefiLlama string_to_number "convex3pool" llama_without_rates
     = Return [("convex3pool", {| Quote.base := 0%float; Quote.reward := 0%float |})].
Proof. repeat split; reflexivity. Qed.

(** ** C9 *)

(** C9.  With a boost multiplier of 0 the blended APY of every completed
    cycle is exactly 0, whatever the matrix, the holdings and the quotes; and
    the cycle does complete on every complete input. *)
Theorem zero_boost_zero_apy
    (allocs : allocations) (boost : number) (details : Details.t)
    (apys : Obj.t Quote.t) :
  is_zero boost = true ->
  (forall d, project allocs boost details apys = Return d ->
             Data.calculatedAPY d = 0%float)
  /\ (complete allocs details ->
      exists d, project allocs boost details apys = Return d
                /\ Data.calculatedAPY d = 0%float).
Proof.
  intros Hb.
  assert (Hall : forall d, project allocs boost details apys = Return d ->
                           Data.calculatedAPY d = 0%float).
  { intros d H. pose proof (project_of_inv _ _ _ _ _ _ H) as (_ & Hapy & _).
    rewrite Hapy. apply calculatedAPY_all_falsy. intros r Hr.
    destruct (emitted_row_inv _ _ _ _ _ _ H Hr) as (e & _ & _ & Hbo & Hw).
    rewrite Hw, Hbo. apply mul_falsy_r. apply mul_falsy_r.
    unfold falsy. rewrite Hb. apply orb_true_r. }
  split; [ exact Hall | ].
  intros Hc. destruct (project_returns allocs boost details apys Hc) as [d Hd].
  exists d. auto.
Qed.

(** The sample cycle run with boost 0. *)
Lemma zero_boost_zero_apy_witness :
  exists d, project Sample.seeded 0%float Sample.details Sample.apys = Return d
            /\ Data.calculatedAPY d = 0%float.
Proof.
  destruct (zero_boost_zero_apy Sample.seeded 0%float Sample.details Sample.apys
              eq_refl) as [_ H].
  apply H. intros t Ht. cbn in Ht.
  destruct Ht as [<- | [<- | [<- | []]]]; split; eexists; reflexivity.
Defined.

(** ** C10 *)

(** C10.  In an emitted row of a single-asset strategy [total] is
    [undefined]; in the row of a basket strategy it is the sum, from 0, of
    the holdings summaries of the basket's assets. *)
Theorem row_total_undefined_or_basket_sum
    (allocs : allocations) (boost : number) (details : Details.t)
    (apys : Obj.t Quote.t) (d : Data.t) (i : nat) (e : Entry.t) (r : Row.t) :
  project allocs boost details apys = Return d ->
  nth_error strategies i = Some e ->
  nth_error (Data.outcome d) i = Some (Some r) ->
  Row.total r = match Entry.token e with
                | Single _ => None
                | Basket basket =>
                    Some (fold_left
                            (fun acc ai =>
                               (acc + to_number
                                        (Obj.get_u (Details.holdingsSummary details) ai))%float)
                            basket 0%float)
                end.
Proof.
  intros H Hi Hr. apply project_of_Forall2 in H.
  destruct (Forall2_nth_error _ _ _ H i e Hi) as (item & Hitem & He).
  rewrite Hr in Hitem. inversion Hitem; subst item.
  destruct (outcome_entry_Some_inv _ _ _ _ _ _ He) as (info & q & Hs & Hq).
  destruct (outcome_entry_row _ _ _ _ _ _ _ _ Hs Hq He)
    as (r' & Hr' & _ & _ & _ & Ht & _).
  inversion Hr'; subst r'. exact Ht.
Qed.

(** In the sample cycle the first row (Aave, DAI) has no total and the
    seventh (the 3pool basket) has the total of the three summaries. *)
Lemma row_total_undefined_or_basket_sum_witness :
  (exists r, nth_error (Data.outcome sample_data) 0 = Some (Some r)
             /\ Row.total r = None)
  /\ (exists r, nth_error (Data.outcome sample_data) 6 = Some (Some r)
                /\ Row.total r = Some 1600%float).
Proof.
  assert (H : project Sample.seeded 2%float Sample.details Sample.apys
              = Return sample_data) by (vm_compute; reflexivity).
  split; eexists; (split; [ vm_compute; reflexivity | ]).
  - apply (row_total_undefined_or_basket_sum _ _ _ _ _ 0%nat _ _ H eq_refl eq_refl).
  - rewrite (row_total_undefined_or_basket_sum _ _ _ _ _ 6%nat _ _ H eq_refl eq_refl).
    vm_compute. reflexivity.
Defined.

(** * Further properties of the code *)

(** ** More facts about objects *)

Lemma set_set {V : Type} (o : Obj.t V) (k : string) (v1 v2 : V) :
  Obj.set (Obj.set o k v1) k v2 = Obj.set o k v2.
Proof.
  induction o as [ | [k' v'] o IH]; cbn [Obj.set].
  - rewrite String.eqb_refl. reflexivity.
  - destruct (String.eqb k' k) eqn:E; cbn [Obj.set]; rewrite E; congruence.
Qed.

Lemma keys_set_known {V : Type} (o : Obj.t V) (k : string) (v : V) :
  In k (Obj.keys o) -> Obj.keys (Obj.set o k v) = Obj.keys o.
Proof.
  induction o as [ | [k' v'] o IH]; cbn [Obj.set Obj.keys map fst In]; [ tauto | ].
  intros Hin. destruct (String.eqb_spec k' k) as [-> | Hne]; cbn [map fst].
  - reflexivity.
  - f_equal. apply IH. destruct Hin; [ contradiction | assumption ].
Qed.

Lemma keys_set_new {V : Type} (o : Obj.t V) (k : string) (v : V) :
  ~ In k (Obj.keys o) -> Obj.keys (Obj.set o k v) = Obj.keys o ++ [k].
Proof.
  induction o as [ | [k' v'] o IH]; cbn [Obj.set Obj.keys map fst In app];
    [ reflexivity | ].
  intros Hin. destruct (String.eqb_spec k' k) as [-> | Hne]; [ tauto | ].
  cbn [map fst]. f_equal. apply IH. tauto.
Qed.

Lemma get_None_keys {V : Type} (o : Obj.t V) (k : string) :
  Obj.get o k = None <-> ~ In k (Obj.keys o).
Proof.
  induction o as [ | [k' v'] o IH]; cbn [Obj.get Obj.keys map fst In]; [ tauto | ].
  destruct (String.eqb_spec k' k) as [-> | Hne].
  - split; [ discriminate | tauto ].
  - unfold Obj.keys in IH. rewrite IH. tauto.
Qed.

Lemma delete_set {V : Type} (o : Obj.t V) (k : string) (v : V) :
  Obj.delete (Obj.set o k v) k = Obj.delete o k.
Proof.
  induction o as [ | [k' v'] o IH]; cbn [Obj.set Obj.delete].
  - rewrite String.eqb_refl. reflexivity.
  - destruct (String.eqb k' k) eqn:E; cbn [Obj.delete]; rewrite E; congruence.
Qed.

Lemma get_delete_eq {V : Type} (o : Obj.t V) (k : string) :
  Obj.get (Obj.delete o k) k = None.
Proof.
  induction o as [ | [k' v'] o IH]; cbn [Obj.delete]; [ reflexivity | ].
  destruct (String.eqb k' k) eqn:E; [ assumption | ].
  cbn [Obj.get]. rewrite E. assumption.
Qed.

(** ** [onChangeAllocation] *)

Lemma cell_onChangeAllocation (token strategy : string) (percent : number)
    (prev : allocations) (t s : string) :
  cell (onChangeAllocation token strategy percent prev) t s
  = if (String.eqb token t && String.eqb strategy s)%bool
    then Some percent
    else cell prev t s.
Proof.
  unfold cell, onChangeAllocation.
  destruct (String.eqb_spec token t) as [<- | Ht]; cbn [andb].
  - rewrite ObjFacts.get_set_eq.
    destruct (String.eqb_spec strategy s) as [<- | Hs].
    + apply ObjFacts.get_set_eq.
    + rewrite ObjFacts.get_set_neq by assumption.
      destruct (Obj.get prev token); reflexivity.
  - rewrite ObjFacts.get_set_neq by assumption. reflexivity.
Qed.

(** X1.  Two edits of the same cell give the state of the second edit
    alone: the last value wins, and the first leaves no trace. *)
Theorem onChangeAllocation_last_write_wins
    (token strategy : string) (p1 p2 : number) (prev : allocations) :
  onChangeAllocation token strategy p2 (onChangeAllocation token strategy p1 prev)
  = onChangeAllocation token strategy p2 prev.
Proof.
  unfold onChangeAllocation.
  rewrite ObjFacts.get_set_eq, set_set, set_set. reflexivity.
Qed.

(** X2.  Edits of two different cells commute: whichever comes first, every
    cell of the matrix reads the same afterwards. *)
Theorem onChangeAllocation_commutes
    (t1 s1 t2 s2 : string) (p1 p2 : number) (prev : allocations) :
  (t1, s1) <> (t2, s2) ->
  forall t s,
    cell (onChangeAllocation t1 s1 p1 (onChangeAllocation t2 s2 p2 prev)) t s
    = cell (onChangeAllocation t2 s2 p2 (onChangeAllocation t1 s1 p1 prev)) t s.
Proof.
  intros Hne t s. rewrite !cell_onChangeAllocation.
  destruct (String.eqb_spec t1 t) as [E1 | ], (String.eqb_spec s1 s) as [E2 | ],
    (String.eqb_spec t2 t) as [E3 | ], (String.eqb_spec s2 s) as [E4 | ];
    cbn [andb]; try reflexivity.
  exfalso. apply Hne. congruence.
Qed.

Lemma onChangeAllocation_commutes_witness :
  cell (onChangeAllocation "DAI" "morpho_strat" 0.5%float
          (onChangeAllocation "USDC" "morpho_strat" 0.25%float initialAllocations))
    "USDC" "morpho_strat"
  = cell (onChangeAllocation "USDC" "morpho_strat" 0.25%float
            (onChangeAllocation "DAI" "morpho_strat" 0.5%float initialAllocations))
      "USDC" "morpho_strat".
Proof.
  apply (onChangeAllocation_commutes "DAI" "morpho_strat" "USDC" "morpho_strat"
           0.5%float 0.25%float initialAllocations).
  intros E. inversion E.
Defined.

(** X3.  An edit of a cell that exists keeps the shape of the matrix: the
    rows and their order, and the cells of the edited row and their order,
    are as before; no row or cell is added. *)
Theorem onChangeAllocation_keeps_shape
    (token strategy : string) (percent : number) (prev : allocations)
    (row : Obj.t number) :
  Obj.get prev token = Some row ->
  In strategy (Obj.keys row) ->
  Obj.keys (onChangeAllocation token strategy percent prev) = Obj.keys prev
  /\ exists row',
       Obj.get (onChangeAllocation token strategy percent prev) token = Some row'
       /\ Obj.keys row' = Obj.keys row.
Proof.
  intros Hrow Hs. unfold onChangeAllocation. rewrite Hrow. split.
  - apply keys_set_known.
    destruct (in_dec string_dec token (Obj.keys prev)) as [Hin | Hnin]; [ exact Hin | ].
    apply get_None_keys in Hnin. congruence.
  - eexists. split; [ apply ObjFacts.get_set_eq | ].
    apply keys_set_known. exact Hs.
Qed.

Lemma onChangeAllocation_keeps_shape_witness :
  Obj.keys (onChangeAllocation "USDT" "lusd_metastrat" 0.75%float initialAllocations)
  = ["DAI"; "USDC"; "USDT"]
  /\ exists row',
       Obj.get (onChangeAllocation "USDT" "lusd_metastrat" 0.75%float
                  initialAllocations) "USDT" = Some row'
       /\ Obj.keys row' = strategyIds.
Proof.
  apply (onChangeAllocation_keeps_shape "USDT" "lusd_metastrat" 0.75%float
           initialAllocations (map (fun s => (s, 0%float)) strategyIds)).
  - reflexivity.
  - cbn. tauto.
Defined.

(** ** [merge] and the normalizers *)

Lemma get_spread {V : Type} (b : Obj.t V) :
  NoDup (Obj.keys b) ->
  forall (a : Obj.t V) (k : string),
    Obj.get (spread a b) k
    = match Obj.get b k with
      | Some v => Some v
      | None => Obj.get a k
      end.
Proof.
  unfold spread.
  induction b as [ | [k' v'] b IH]; cbn [fold_left Obj.get Obj.keys map fst];
    intros Hnd a k; [ reflexivity | ].
  inversion Hnd as [ | ? ? Hni Hnd']; subst.
  rewrite (IH Hnd'). cbn [fst snd].
  destruct (String.eqb_spec k' k) as [-> | Hne].
  - apply get_None_keys in Hni. rewrite Hni. apply ObjFacts.get_set_eq.
  - rewrite ObjFacts.get_set_neq by assumption. reflexivity.
Qed.

(** X4.  In a merge of objects with unique keys a key reads as in the last
    object that has it, and is missing when none has it: later objects
    override earlier ones and nothing else is lost. *)
Theorem merge_reads_the_last_object_with_the_key {V : Type}
    (data : list (Obj.t V)) (k : string) :
  Forall (fun o => NoDup (Obj.keys o)) data ->
  Obj.get (merge data) k
  = fold_left
      (fun acc item =>
         match Obj.get item k with
         | Some v => Some v
         | None => acc
         end)
      data None.
Proof.
  unfold merge. intros Hnd.
  change (@None V) with (Obj.get (@nil (string * V)) k).
  generalize (@nil (string * V)) as acc.
  induction Hnd as [ | item data Hitem _ IH]; cbn [fold_left]; intros acc;
    [ reflexivity | ].
  rewrite IH, (get_spread item Hitem). reflexivity.
Qed.

Lemma merge_reads_the_last_object_with_the_key_witness :
  Obj.get (merge [ [("a", 1%nat); ("b", 2%nat)]; [("b", 3%nat)]; [("c", 4%nat)] ]) "b"
  = Some 3%nat.
Proof.
  rewrite merge_reads_the_last_object_with_the_key; [ reflexivity | ].
  repeat constructor; cbn; intuition discriminate.
Defined.

Lemma find_app_last {A : Type} (p : A -> bool) (l : list A) (x : A) :
  find p (l ++ [x])
  = match find p l with
    | Some y => Some y
    | None => if p x then Some x else None
    end.
Proof.
  induction l as [ | y l IH]; cbn [find app]; [ reflexivity | ].
  destruct (p y); [ reflexivity | exact IH ].
Qed.

Section NormalizerProperties.

Variable string_to_number : string -> number.

Lemma processAAVE_fold (reserves : list Aave.reserve) (symbol : string) :
  forall acc,
    Obj.get
      (fold_left
         (fun acc r =>
            match Aave.symbol r with
            | Some symbol =>
                if includes (Obj.keys aaveTokens) symbol then
                  Obj.set acc symbol (aave_quote string_to_number r)
                else acc
            | None => acc
            end)
         reserves acc) symbol
    = match last_reserve reserves symbol with
      | Some r =>
          if includes (Obj.keys aaveTokens) symbol then Some (aave_quote string_to_number r)
          else Obj.get acc symbol
      | None => Obj.get acc symbol
      end.
Proof.
  unfold last_reserve.
  induction reserves as [ | r reserves IH] using rev_ind; intros acc;
    [ reflexivity | ].
  rewrite fold_left_app, rev_app_distr. cbn [fold_left rev app find].
  destruct (Aave.symbol r) as [s | ] eqn:Es.
  - destruct (String.eqb_spec s symbol) as [-> | Hne].
    + destruct (includes (Obj.keys aaveTokens) symbol) eqn:Ei.
      * apply ObjFacts.get_set_eq.
      * rewrite IH.
        destruct (find _ (rev reserves)); reflexivity.
    + rewrite <- IH.
      destruct (includes (Obj.keys aaveTokens) s); [ | reflexivity ].
      apply ObjFacts.get_set_neq. assumption.
  - apply IH.
Qed.

(** X5.  [processAAVE] throws exactly when the response has no [reserves]
    list or the list holds a [null].  Otherwise a symbol has a quote exactly
    when it is one of the three recognized aTokens and some reserve carries
    it, and the quote is that of the last such reserve; every other reserve
    is dropped. *)
Theorem processAAVE_keeps_the_last_recognized_reserve (resp : Aave.response) :
  (processAAVE string_to_number resp = Throw TypeError
   <-> Aave.reserves resp = None
       \/ exists items, Aave.reserves resp = Some items /\ In None items)
  /\ forall reserves,
       Aave.reserves resp = Some (map Some reserves) ->
       exists out,
         processAAVE string_to_number resp = Return out
         /\ forall symbol,
              Obj.get out symbol
              = if includes (Obj.keys aaveTokens) symbol
                then option_map (aave_quote string_to_number)
                       (last_reserve reserves symbol)
                else None.
Proof.
  unfold processAAVE. cbv zeta. split.
  - destruct (Aave.reserves resp) as [items | ]; cbn [expect bind].
    + rewrite (foldM_Throw_iff _ (fun item => item = None)).
      * split.
        -- intros (item & Hin & ->). right. eauto.
        -- intros [H | (items' & E & Hin)]; [ discriminate H | ].
           inversion E; subst items'. eauto.
      * intros acc [r | ]; cbn [expect bind]; split; intros H;
          (discriminate H || reflexivity).
    + split; [ auto | reflexivity ].
  - intros reserves E. rewrite E. cbn [expect bind].
    rewrite foldM_expect_map_Some.
    eexists. split; [ reflexivity | ].
    intros symbol.
    pose proof (processAAVE_fold reserves symbol []) as H.
    unfold aave_quote in *. rewrite H. cbn [Obj.get].
    destruct (last_reserve reserves symbol), (includes (Obj.keys aaveTokens) symbol);
      reflexivity.
Qed.

Lemma processCompound_step_throws (acc : Obj.t Quote.t)
    (item : option Compound.ctoken) :
  (c <- expect item ;;
   match Compound.symbol c with
   | Some symbol =>
       if includes (Obj.keys compoundTokens) symbol then
         supply_rate <- expect (Compound.supply_rate c) ;;
         comp_supply_apy <- expect (Compound.comp_supply_apy c) ;;
         Return
           (Obj.set acc symbol
              {| Quote.base := Number string_to_number (Compound.value supply_rate);
                 Quote.reward :=
                   (Number string_to_number (Compound.value comp_supply_apy) / 100)%float |})
       else Return acc
   | None => Return acc
   end) = Throw TypeError
  <-> match item with
      | None => True
      | Some c => ctoken_incomplete c
      end.
Proof.
  destruct item as [c | ]; cbn [expect bind]; [ | split; auto ].
  unfold ctoken_incomplete.
  destruct (Compound.symbol c) as [symbol | ].
  - destruct (includes (Obj.keys compoundTokens) symbol) eqn:Ei.
    + destruct (Compound.supply_rate c) as [sr | ]; cbn [expect bind].
      * destruct (Compound.comp_supply_apy c) as [ca | ]; cbn [expect bind].
        -- split; [ discriminate | ]. intros [_ [H | H]]; discriminate.
        -- split; [ | reflexivity ]. intros _. split; eauto.
      * split; [ | reflexivity ]. intros _. split; eauto.
    + split; [ discriminate | ].
      intros [(s & Hs & Hi) _]. inversion Hs; subst s. congruence.
  - split; [ discriminate | ]. intros [(s & Hs & _) _]. discriminate.
Qed.

(** X6.  [processCompound] throws exactly when the response has no [cToken]
    list, the list holds a [null], or some cToken of a recognized symbol
    lacks its [supply_rate] or its [comp_supply_apy]; an incomplete cToken
    of any other symbol is dropped without harm. *)
Theorem processCompound_throws_iff (resp : Compound.response) :
  processCompound string_to_number resp = Throw TypeError
  <-> Compound.cToken resp = None
      \/ exists items,
           Compound.cToken resp = Some items
           /\ (In None items
               \/ exists c, In (Some c) items /\ ctoken_incomplete c).
Proof.
  unfold processCompound. cbv zeta.
  destruct (Compound.cToken resp) as [items | ]; cbn [expect bind].
  - rewrite (foldM_Throw_iff _
               (fun item => match item with
                            | None => True
                            | Some c => ctoken_incomplete c
                            end)
               items processCompound_step_throws).
    split.
    + intros ([c | ] & Hin & Hc); right; exists items; eauto.
    + intros [H | (items' & E & [Hin | (c & Hin & Hc)])]; [ discriminate H | | ];
        inversion E; subst items'.
      * exists None. auto.
      * exists (Some c). auto.
  - split; [ auto | reflexivity ].
Qed.

(** X7.  [processDefiLlama] throws exactly when the response has no [data],
    an empty one, or one whose last element is [null].  Otherwise it reads
    the last data point only: the result is the one it gives for that point
    alone, a single quote under the pool's key. *)
Theorem processDefiLlama_reads_the_last_point (pool : string)
    (resp : Llama.response) :
  (processDefiLlama string_to_number pool resp = Throw TypeError
   <-> Llama.data resp = None
       \/ Llama.data resp = Some []
       \/ exists points, Llama.data resp = Some (points ++ [None]))
  /\ forall points p,
       Llama.data resp = Some (points ++ [Some p]) ->
       processDefiLlama string_to_number pool resp
       = processDefiLlama string_to_number pool {| Llama.data := Some [Some p] |}
       /\ exists q,
            processDefiLlama string_to_number pool resp = Return [(pool, q)].
Proof.
  unfold processDefiLlama. split.
  - destruct (Llama.data resp) as [points | ]; cbn [expect bind].
    + destruct points as [ | item points _] using rev_ind.
      * cbn. split; auto.
      * rewrite last_last. destruct item as [p | ]; cbn [expect bind].
        -- split; [ discriminate | ].
           intros [H | [H | (pts & H)]]; [ discriminate H | | ];
             inversion H as [H'].
           ++ destruct points; discriminate H'.
           ++ apply app_inj_tail in H'. destruct H' as [_ H']. discriminate H'.
        -- split; [ | reflexivity ]. intros _. right. right. eauto.
    + split; auto.
  - intros points p E. rewrite E. cbn [Llama.data expect bind].
    rewrite last_last. cbn [expect bind app last].
    split; [ reflexivity | eauto ].
Qed.

Lemma get_set_inv {V : Type} (o : Obj.t V) (k k2 : string) (v x : V) :
  Obj.get (Obj.set o k v) k2 = Some x -> k = k2 \/ Obj.get o k2 = Some x.
Proof.
  destruct (String.eqb_spec k k2) as [-> | Hne]; [ auto | ].
  rewrite ObjFacts.get_set_neq by assumption. auto.
Qed.

Lemma get_spread_inv {V : Type} (b : Obj.t V) :
  forall (a : Obj.t V) (k : string) (x : V),
    Obj.get (spread a b) k = Some x ->
    (exists y, Obj.get a k = Some y) \/ In k (Obj.keys b).
Proof.
  unfold spread.
  induction b as [ | [k' v'] b IH]; cbn [fold_left Obj.keys map fst In];
    intros a k x H; [ eauto | ].
  apply IH in H. destruct H as [[y Hy] | Hin]; [ | auto ].
  cbn [fst snd] in Hy. apply get_set_inv in Hy. destruct Hy; eauto.
Qed.

Lemma get_merge_inv {V : Type} (data : list (Obj.t V)) (k : string) (x : V) :
  Obj.get (merge data) k = Some x ->
  exists item, In item data /\ In k (Obj.keys item).
Proof.
  unfold merge.
  assert (G : forall acc,
             Obj.get (fold_left (fun acc item => spread acc item) data acc) k = Some x ->
             (exists y, Obj.get acc k = Some y)
             \/ exists item, In item data /\ In k (Obj.keys item)).
  { induction data as [ | item data IH]; cbn [fold_left In]; intros acc H;
      [ eauto | ].
    apply IH in H. destruct H as [[y Hy] | (it & Hin & Hk)]; [ | eauto ].
    apply get_spread_inv in Hy. destruct Hy as [Hy | Hy]; eauto. }
  intros H. apply G in H. destruct H as [[y Hy] | H]; [ discriminate | exact H ].
Qed.

(** Only recognized symbols get a quote from [processCompound]. *)
Lemma processCompound_keys (resp : Compound.response) (out : Obj.t Quote.t)
    (k : string) (q : Quote.t) :
  processCompound string_to_number resp = Return out ->
  Obj.get out k = Some q -> In k (Obj.keys compoundTokens).
Proof.
  unfold processCompound. intros E.
  apply bind_Return_inv in E. destruct E as (cs & _ & E). revert E.
  assert (Hnil : forall k q, Obj.get (@nil (string * Quote.t)) k = Some q ->
                             In k (Obj.keys compoundTokens))
    by (intros ? ? H; discriminate).
  revert Hnil. generalize (@nil (string * Quote.t)) as acc.
  induction cs as [ | item cs IH]; cbn [foldM]; intros acc Hacc E.
  - inversion E; subst out. apply Hacc.
  - apply bind_Return_inv in E. destruct E as (acc' & Estep & E).
    refine (IH acc' _ E). clear IH E.
    destruct item as [c | ]; cbn [expect bind] in Estep; [ | discriminate Estep ].
    destruct (Compound.symbol c) as [symbol | ];
      [ | inversion Estep; subst acc'; exact Hacc ].
    destruct (includes (Obj.keys compoundTokens) symbol) eqn:Ei;
      [ | inversion Estep; subst acc'; exact Hacc ].
    apply bind_Return_inv in Estep. destruct Estep as (sr & _ & Estep).
    apply bind_Return_inv in Estep. destruct Estep as (ca & _ & Estep).
    inversion Estep; subst acc'. intros k' q' H.
    apply get_set_inv in H. destruct H as [<- | H]; [ | eauto ].
    unfold includes in Ei. apply existsb_exists in Ei.
    destruct Ei as (s' & Hin & Heq). apply String.eqb_eq in Heq. subst s'. exact Hin.
Qed.

(** X8.  Whatever the venues answer, the merged quotes of [fetchAPYs] have
    no key outside the three tables [aaveTokens], [compoundTokens] and
    [defiLlama]: every other symbol of a response is dropped. *)
Theorem fetchAPYs_keys_are_recognized
    (aave : Aave.response) (compound : Compound.response)
    (llama : list Llama.response) (out : Obj.t Quote.t) (k : string) (q : Quote.t) :
  fetchAPYs string_to_number aave compound llama = Return out ->
  Obj.get out k = Some q ->
  In k (Obj.keys aaveTokens ++ Obj.keys compoundTokens ++ Obj.keys defiLlama).
Proof.
  unfold fetchAPYs. intros E Hk.
  apply bind_Return_inv in E. destruct E as (a & Ea & E).
  apply bind_Return_inv in E. destruct E as (c & Ec & E).
  apply bind_Return_inv in E. destruct E as (l & El & E).
  inversion E; subst out. clear E.
  apply get_merge_inv in Hk. destruct Hk as (item & Hitem & Hin).
  assert (Hsome : exists v, Obj.get item k = Some v).
  { destruct (Obj.get item k) eqn:Eg; [ eauto | ].
    apply get_None_keys in Eg. contradiction. }
  destruct Hsome as [v Hv].
  rewrite !in_app_iff.
  destruct Hitem as [<- | [<- | [<- | []]]].
  - left. exact (processAAVE_keys _ _ _ _ _ Ea Hv).
  - right. left. exact (processCompound_keys _ _ _ _ Ec Hv).
  - right. right.
    apply get_merge_inv in Hv. destruct Hv as (one & Hone & Hk1).
    apply mapM_Forall2 in El.
    destruct (Forall2_In_r _ _ _ El _ Hone) as ([pool resp] & Hpr & Hp).
    cbn [fst snd] in Hp. unfold processDefiLlama in Hp.
    apply bind_Return_inv in Hp. destruct Hp as (data & _ & Hp).
    apply bind_Return_inv in Hp. destruct Hp as (p & _ & Hp).
    inversion Hp; subst one. cbn in Hk1. destruct Hk1 as [<- | []].
    exact (in_combine_l _ _ _ _ Hpr).
Qed.

End NormalizerProperties.

Lemma processAAVE_keeps_the_last_recognized_reserve_witness :
  exists out,
    processAAVE (fun _ => nan) aave_with_repeated_symbol = Return out
    /\ Obj.get out "ADAI"
       = Some {| Quote.base := 0.125%float; Quote.reward := 0%float |}
    /\ Obj.get out "WETH" = None.
Proof.
  destruct (processAAVE_keeps_the_last_recognized_reserve (fun _ => nan)
              aave_with_repeated_symbol) as [_ Hret].
  destruct (Hret _ eq_refl) as (out & E & H).
  exists out. split; [ exact E | ].
  split; rewrite H; reflexivity.
Defined.

Lemma fetchAPYs_keys_are_recognized_witness :
  In "ADAI" (Obj.keys aaveTokens ++ Obj.keys compoundTokens ++ Obj.keys defiLlama).
Proof.
  apply (fetchAPYs_keys_are_recognized (fun _ => nan)
           {| Aave.reserves :=
                Some [ Some {| Aave.symbol := Some "ADAI";
                               Aave.liquidityRate := Some (JNum 0.5%float);
                               Aave.aIncentivesAPY := None |} ] |}
           {| Compound.cToken := Some [] |}
           [ {| Llama.data :=
                  Some [ Some {| Llama.apyBase := None;
                                 Llama.apyReward := None |} ] |} ]
           [ ("ADAI", {| Quote.base := 0.5%float; Quote.reward := 0%float |});
             ("convex3pool", {| Quote.base := 0%float; Quote.reward := 0%float |}) ]
           "ADAI"
           {| Quote.base := 0.5%float; Quote.reward := 0%float |});
    reflexivity.
Defined.

(** ** [processStrategies] and [fetchOUSDDetails] *)

(** X9.  [processStrategies] throws exactly when some strategy of the
    snapshot has no [holdings]; the holdings of the others do not matter,
    and an empty snapshot gives the empty totals. *)
Theorem processStrategies_throws_iff (data : snapshot) :
  processStrategies data = Throw TypeError
  <-> exists key, In key (Obj.keys data) /\ holdings_at data key = None.
Proof.
  unfold processStrategies.
  apply (foldM_Throw_iff _ (fun key => holdings_at data key = None)).
  intros acc key. unfold holdings_at.
  destruct (match Obj.get data key with
            | Some info => Info.holdings info
            | None => None
            end); cbn [expect bind]; split; congruence.
Qed.

Lemma get_add_holding (holdings acc : Obj.t number) (token k : string) :
  Obj.get (add_holding holdings acc token) k
  = if String.eqb token k
    then Some ((match Obj.get acc token with
                | Some x => if falsy x then 0 else x
                | None => 0
                end + to_number (Obj.get holdings token))%float)
    else Obj.get acc k.
Proof.
  unfold add_holding.
  destruct (String.eqb_spec token k) as [<- | Hne].
  - rewrite ObjFacts.get_set_eq. do 2 f_equal.
    destruct (Obj.get acc token) as [x | ] eqn:E.
    + destruct (falsy x) eqn:F.
      * rewrite ObjFacts.get_set_eq. reflexivity.
      * rewrite E. reflexivity.
    + rewrite ObjFacts.get_set_eq. reflexivity.
  - rewrite ObjFacts.get_set_neq by assumption.
    destruct (Obj.get acc token) as [x | ]; [ destruct (falsy x) | ];
      rewrite ?ObjFacts.get_set_neq by assumption; reflexivity.
Qed.

Lemma get_add_holdings (holdings : Obj.t number) (k : string)
    (tokens : list string) :
  forall acc,
    Obj.get (fold_left (add_holding holdings) tokens acc) k
    = fold_left
        (fun a h =>
           Some ((match a with
                  | Some x => if falsy x then 0 else x
                  | None => 0
                  end + h)%float))
        (map (fun _ => to_number (Obj.get holdings k))
           (filter (String.eqb k) tokens))
        (Obj.get acc k).
Proof.
  induction tokens as [ | t tokens IH]; cbn [fold_left filter map]; intros acc;
    [ reflexivity | ].
  rewrite IH, get_add_holding. rewrite (String.eqb_sym k t).
  destruct (String.eqb_spec t k) as [-> | Hne]; cbn [map fold_left]; reflexivity.
Qed.

(** X10.  For a token that is not named like a member of
    [Object.prototype], the total is the running total of the amounts of
    that token alone, taken strategy by strategy in snapshot order, where a
    running total that is 0 or NaN restarts at 0 before the next amount is
    added; such a token that no strategy lists has no total.  So its total
    does not depend on the amounts of any other token. *)
Theorem processStrategies_total_of_a_token
    (data : snapshot) (totals : Obj.t number) (token : string) :
  own_name token = true ->
  processStrategies data = Return totals ->
  Obj.get totals token = running_total (token_amounts data token).
Proof.
  intros _.
  unfold processStrategies, running_total, token_amounts.
  change (@None number) with (Obj.get (@nil (string * number)) token) at 1.
  generalize (@nil (string * number)) as acc.
  induction (Obj.keys data) as [ | key keys IH]; cbn [foldM flat_map]; intros acc E.
  - inversion E. reflexivity.
  - apply bind_Return_inv in E. destruct E as (acc' & Estep & E).
    apply bind_Return_inv in Estep. destruct Estep as (holdings & Eh & Estep).
    inversion Estep; subst acc'. clear Estep.
    rewrite (IH _ E), fold_left_app. f_equal.
    unfold holdings_at.
    destruct (match Obj.get data key with
              | Some info => Info.holdings info
              | None => None
              end) as [h | ]; [ | discriminate ].
    inversion Eh; subst h. apply get_add_holdings.
Qed.

Lemma processStrategies_total_of_a_token_witness :
  Obj.get [("DAI", 5%float); ("USDC", 8%float)] "DAI"
  = running_total (token_amounts fetched_two_tokens "DAI").
Proof.
  apply (processStrategies_total_of_a_token fetched_two_tokens
           [("DAI", 5%float); ("USDC", 8%float)] "DAI").
  - reflexivity.
  - vm_compute. reflexivity.
Defined.

(** X11.  The vault's own holdings never count: whatever stands under
    [vault_holding] in the fetched strategies, the details are those of the
    snapshot without it, and the strategies kept have no [vault_holding]. *)
Theorem fetchOUSDDetails_ignores_the_vault (fetched : snapshot) (vault : Info.t) :
  fetchOUSDDetails (Obj.set fetched "vault_holding" vault)
  = fetchOUSDDetails (Obj.delete fetched "vault_holding")
  /\ fetchOUSDDetails fetched = fetchOUSDDetails (Obj.delete fetched "vault_holding")
  /\ forall d,
       fetchOUSDDetails fetched = Return d ->
       Obj.get (Details.ousdStrategies d) "vault_holding" = None.
Proof.
  assert (Hidem : Obj.delete (Obj.delete fetched "vault_holding") "vault_holding"
                  = Obj.delete fetched "vault_holding").
  { induction fetched as [ | [k v] f IH]; cbn [Obj.delete]; [ reflexivity | ].
    destruct (String.eqb k "vault_holding") eqn:E; [ exact IH | ].
    cbn [Obj.delete]. rewrite E, IH. reflexivity. }
  split; [ | split ].
  - unfold fetchOUSDDetails. rewrite delete_set, Hidem. reflexivity.
  - unfold fetchOUSDDetails. rewrite Hidem. reflexivity.
  - intros d E. apply fetchOUSDDetails_inv in E. destruct E as (_ & -> & _).
    apply get_delete_eq.
Qed.

(** X12.  With amounts that are all [>= 0], the grand total and the total
    of every token that is not named like a member of [Object.prototype]
    are [>= 0] too: none is negative and none is NaN. *)
Theorem nonneg_amounts_give_nonneg_totals (fetched : snapshot) (d : Details.t) :
  fetchOUSDDetails fetched = Return d ->
  amounts_nonneg fetched = true ->
  nonneg (Details.totalStables d) = true
  /\ forall token x,
       own_name token = true ->
       Obj.get (Details.totalHoldings d) token = Some x -> nonneg x = true.
Proof.
  intros E Hamt. apply (amounts_nonneg_sound _ "vault_holding") in Hamt.
  apply fetchOUSDDetails_inv in E. destruct E as (Ep & _ & Et & _).
  pose proof (totals_nonneg _ _ Hamt Ep) as Hnn.
  split; [ | intros token x _; apply Hnn ].
  assert (Hk : forall t, nonneg (or0u (Obj.get (Details.totalHoldings d) t)) = true).
  { intros t. destruct (Obj.get (Details.totalHoldings d) t) as [x | ] eqn:Ex;
      cbn [or0u]; [ | reflexivity ].
    apply or0_nonneg. exact (Hnn _ _ Ex). }
  rewrite Et. repeat apply add_nonneg; auto.
Qed.

Lemma nonneg_amounts_give_nonneg_totals_witness :
  nonneg (Details.totalStables Sample.details) = true
  /\ forall token x,
       own_name token = true ->
       Obj.get (Details.totalHoldings Sample.details) token = Some x ->
       nonneg x = true.
Proof.
  apply (nonneg_amounts_give_nonneg_totals Sample.fetched).
  - vm_compute. reflexivity.
  - reflexivity.
Defined.

(** ** The seeding *)

(** X13.  The seeding throws exactly when one of the seven strategies it
    destructures is missing from the snapshot or has no [holdings]; a zero
    or missing per-asset total never makes it throw. *)
Theorem baseline_throws_iff (details : Details.t) :
  baseline details = Throw TypeError
  <-> exists s, In s strategyIds /\ holdings_of details s = Throw TypeError.
Proof.
  unfold baseline.
  destruct (mapM (fun s => h <- holdings_of details s ;; Return (s, h)) strategyIds)
    as [hs | []] eqn:E; cbn [bind].
  - split; [ discriminate | ]. intros (s & Hin & Hs).
    assert (H : mapM (fun s => h <- holdings_of details s ;; Return (s, h))
                  strategyIds = Throw TypeError).
    { apply mapM_Throw_iff. exists s. split; [ exact Hin | ].
      rewrite Hs. reflexivity. }
    congruence.
  - split; [ | reflexivity ]. intros _.
    apply mapM_Throw_iff in E. destruct E as (s & Hin & Hs).
    exists s. split; [ exact Hin | ].
    destruct (holdings_of details s) as [h | []]; [ discriminate | reflexivity ].
Qed.

(** X14.  When the seeding returns, the matrix it gives to [setAllocations]
    has the rows DAI, USDC and USDT, each with the seven strategies in the
    order of the literal, and every cell is the strategy's holding of the
    token divided by the token's total, both read as numbers. *)
Theorem baseline_cells (details : Details.t) (seeded : allocations) :
  baseline details = Return seeded ->
  Obj.keys seeded = ["DAI"; "USDC"; "USDT"]
  /\ forall token,
       In token ["DAI"; "USDC"; "USDT"] ->
       (exists row, Obj.get seeded token = Some row /\ Obj.keys row = strategyIds)
       /\ forall s,
            In s strategyIds ->
            exists h,
              holdings_of details s = Return h
              /\ cell seeded token s
                 = Some (to_number (Obj.get h token)
                         / perAssetTotal details token)%float.
Proof.
  unfold baseline. cbn [mapM strategyIds]. intros E.
  destruct (holdings_of details "aavestrat_holding") as [h1 | ] eqn:E1;
    cbn [bind] in E; [ | discriminate ].
  destruct (holdings_of details "compstrat_holding") as [h2 | ] eqn:E2;
    cbn [bind] in E; [ | discriminate ].
  destruct (holdings_of details "threepoolstrat_holding") as [h3 | ] eqn:E3;
    cbn [bind] in E; [ | discriminate ].
  destruct (holdings_of details "lusd_metastrat") as [h4 | ] eqn:E4;
    cbn [bind] in E; [ | discriminate ].
  destruct (holdings_of details "ousd_metastrat") as [h5 | ] eqn:E5;
    cbn [bind] in E; [ | discriminate ].
  destruct (holdings_of details "morpho_aave_strat") as [h6 | ] eqn:E6;
    cbn [bind] in E; [ | discriminate ].
  destruct (holdings_of details "morpho_strat") as [h7 | ] eqn:E7;
    cbn [bind] in E; [ | discriminate ].
  inversion E; subst seeded. clear E.
  split; [ reflexivity | ].
  intros token Htok. cbn in Htok.
  destruct Htok as [<- | [<- | [<- | []]]];
    (split; [ eexists; split; reflexivity | ]);
    intros s Hs; cbn in Hs;
    destruct Hs as [<- | [<- | [<- | [<- | [<- | [<- | [<- | []]]]]]]];
    eexists; (split; [ eassumption | reflexivity ]).
Qed.

Lemma baseline_cells_witness :
  cell Sample.seeded "USDT" "morpho_strat" = Some 0.5%float.
Proof.
  destruct (baseline_cells Sample.details Sample.seeded) as [_ H].
  - vm_compute. reflexivity.
  - destruct (H "USDT") as [_ Hc]; [ cbn; tauto | ].
    destruct (Hc "morpho_strat") as (h & Eh & ->); [ cbn; tauto | ].
    vm_compute in Eh. inversion Eh; subst h. vm_compute. reflexivity.
Defined.

(** ** When the projection throws *)

Section ProjectionThrows.

Variable allocs : allocations.
Variable boost : number.
Variable details : Details.t.
Variable apys : Obj.t Quote.t.

Lemma share_throws_iff (strategyId token : string) :
  share allocs details strategyId token = Throw TypeError
  <-> Obj.get allocs token = None.
Proof.
  unfold share. destruct (Obj.get allocs token); cbn [expect bind];
    split; intros H; (discriminate H || reflexivity).
Qed.

Lemma allocation_total_throws_iff (strategyId : string) (s : scope) :
  allocation_total allocs details strategyId s = Throw TypeError
  <-> match s with
      | Single token =>
          Obj.get allocs token = None
          \/ Obj.get_u (Details.holdingsSummary details) token = None
      | Basket tokens =>
          exists token, In token tokens /\ Obj.get allocs token = None
      end.
Proof.
  destruct s as [token | tokens]; cbn [allocation_total].
  - unfold share.
    destruct (Obj.get allocs token) as [row | ]; cbn [expect bind].
    + destruct (Obj.get_u (Details.holdingsSummary details) token);
        cbn [expect bind].
      * split; [ discriminate | intros [H | H]; discriminate ].
      * split; auto.
    + split; auto.
  - destruct (foldM _ tokens (0%float, 0%float)) as [[a t] | []] eqn:E; cbn [bind].
    + split; [ discriminate | ]. intros Hbad.
      assert (H : foldM
                    (fun at_ currentToken =>
                       s <- share allocs details strategyId currentToken ;;
                       Return ((fst at_ + s)%float,
                               (snd at_ + to_number
                                  (Obj.get_u (Details.holdingsSummary details)
                                     currentToken))%float))
                    tokens (0%float, 0%float) = Throw TypeError).
      { apply (foldM_Throw_iff _ (fun t => Obj.get allocs t = None));
          [ | exact Hbad ].
        intros acc x. rewrite <- (share_throws_iff strategyId x).
        destruct (share allocs details strategyId x) as [v | []]; cbn [bind];
          split; intros Hx; (discriminate Hx || reflexivity). }
      congruence.
    + split; [ | reflexivity ]. intros _.
      apply (foldM_Throw_iff _ (fun t => Obj.get allocs t = None)) in E;
        [ exact E | ].
      intros acc x. rewrite <- (share_throws_iff strategyId x).
      destruct (share allocs details strategyId x) as [v | []]; cbn [bind];
        split; intros Hx; (discriminate Hx || reflexivity).
Qed.

Lemma outcome_entry_throws_iff (e : Entry.t) :
  outcome_entry allocs boost details apys e = Throw TypeError
  <-> entry_throws allocs details apys e.
Proof.
  unfold outcome_entry, entry_throws.
  rewrite <- (allocation_total_throws_iff (Entry.strategyId e)).
  destruct (Obj.get (Details.ousdStrategies details) (Entry.strategyId e));
    [ | split; [ discriminate | intros [H _]; congruence ] ].
  destruct (Obj.get apys (Entry.apy e));
    [ | split; [ discriminate | intros (_ & H & _); congruence ] ].
  destruct (allocation_total allocs details (Entry.strategyId e) (Entry.token e))
    as [[a tot] | []]; cbn [bind].
  - split; [ discriminate | ]. intros (_ & _ & H). discriminate H.
  - split; [ | reflexivity ]. intros _.
    split; [ discriminate | split; [ discriminate | reflexivity ] ].
Qed.

(** X15.  The projection throws exactly when some catalog entry that has a
    snapshot entry and a quote meets a token with no row in the matrix or,
    for a single-asset entry, with no holdings summary.  Entries without
    data never make it throw, and nothing else does. *)
Theorem project_throws_iff :
  project allocs boost details apys = Throw TypeError
  <-> exists e, In e strategies /\ entry_throws allocs details apys e.
Proof.
  unfold project, project_of, outcome_of.
  destruct (mapM (outcome_entry allocs boost details apys) strategies)
    as [out | []] eqn:E; cbn [bind].
  - split; [ discriminate | ]. intros (e & Hin & He).
    assert (H : mapM (outcome_entry allocs boost details apys) strategies
                = Throw TypeError).
    { apply mapM_Throw_iff. exists e. split; [ exact Hin | ].
      apply outcome_entry_throws_iff. exact He. }
    congruence.
  - split; [ | reflexivity ]. intros _.
    apply mapM_Throw_iff in E. destruct E as (e & Hin & He).
    exists e. split; [ exact Hin | ]. apply outcome_entry_throws_iff. exact He.
Qed.

End ProjectionThrows.

(** ** The quotes the catalog reads *)

Lemma strategies_never_read_cDAI_cUSDC (e : Entry.t) :
  In e strategies -> Entry.apy e <> "cDAI" /\ Entry.apy e <> "cUSDC".
Proof.
  intros He. cbn in He.
  repeat (destruct He as [<- | He]; [ split; discriminate | ]).
  destruct He.
Qed.

(** X16.  The three Compound rows all read the quote stored under cUSDT:
    the quotes stored under cDAI and cUSDC are read by no catalog entry, so
    changing, adding or dropping them leaves every row and the calculated
    APY as they are. *)
Theorem outcome_ignores_cDAI_and_cUSDC_quotes (allocs : allocations)
    (boost : number) (details : Details.t) (apys apys' : Obj.t Quote.t) :
  (forall k, k <> "cDAI" -> k <> "cUSDC" -> Obj.get apys k = Obj.get apys' k) ->
  outcome_of allocs boost details apys strategies
  = outcome_of allocs boost details apys' strategies
  /\ forall d d',
       project allocs boost details apys = Return d ->
       project allocs boost details apys' = Return d' ->
       Data.outcome d = Data.outcome d'
       /\ Data.calculatedAPY d = Data.calculatedAPY d'.
Proof.
  intros H.
  assert (Hout : outcome_of allocs boost details apys strategies
                 = outcome_of allocs boost details apys' strategies).
  { unfold outcome_of.
    assert (G : forall l, (forall e, In e l -> In e strategies) ->
                  mapM (outcome_entry allocs boost details apys) l
                  = mapM (outcome_entry allocs boost details apys') l).
    { induction l as [ | e l IH]; intros Hl; cbn [mapM]; [ reflexivity | ].
      rewrite IH by (intros e' He'; apply Hl; right; exact He').
      destruct (strategies_never_read_cDAI_cUSDC e) as [H1 H2];
        [ apply Hl; left; reflexivity | ].
      unfold outcome_entry. rewrite (H _ H1 H2). reflexivity. }
    apply G. auto. }
  split; [ exact Hout | ].
  intros d d' Hd Hd'.
  apply project_of_inv in Hd. apply project_of_inv in Hd'.
  destruct Hd as (Ho & Hc & _). destruct Hd' as (Ho' & Hc' & _).
  rewrite Hout, Ho' in Ho. inversion Ho as [Heq].
  split; [ reflexivity | ]. rewrite Hc, Hc', Heq. reflexivity.
Qed.

Lemma outcome_ignores_cDAI_and_cUSDC_quotes_witness :
  outcome_of Sample.seeded 2%float Sample.details Sample.apys strategies
  = outcome_of Sample.seeded 2%float Sample.details
      (Obj.set Sample.apys "cDAI"
         {| Quote.base := 1%float; Quote.reward := 1%float |})
      strategies.
Proof.
  apply (outcome_ignores_cDAI_and_cUSDC_quotes Sample.seeded 2%float
           Sample.details Sample.apys
           (Obj.set Sample.apys "cDAI"
              {| Quote.base := 1%float; Quote.reward := 1%float |})).
  intros k H1 _. symmetry. apply ObjFacts.get_set_neq. congruence.
Defined.

(** ** [StrategyTable] *)

Lemma field_fold_emitted (f : Row.t -> number) (l : list (option Row.t)) :
  forall acc, acc <> neg_zero ->
    fold_left (fun acc item => (acc + field_or0 f item)%float) l acc
    = fold_left (fun acc x => (acc + or0 x)%float) (map f (emitted l)) acc.
Proof.
  induction l as [ | [r | ] l IH]; cbn [fold_left emitted map field_or0];
    intros acc Hacc.
  - reflexivity.
  - apply IH. apply add_not_neg_zero. assumption.
  - rewrite add_zero_r by assumption. apply IH. assumption.
Qed.

Lemma field_sum_emitted (f : Row.t -> number) (l : list (option Row.t)) :
  fold_left (fun acc item => (acc + field_or0 f item)%float) l 0%float
  = sum_or0 (map f (emitted l)).
Proof. apply field_fold_emitted. discriminate. Qed.

(** X17.  The summary of the strategy table adds each of the seven columns
    over the rows that were emitted, a NaN term counting as 0 and a [null]
    entry as nothing; its weighted figure is the very number the hook stores
    as the calculated APY. *)
Theorem strategySummary_sums_the_emitted_rows (outcome : list (option Row.t)) :
  strategySummary (Some outcome)
  = Some {| Summary.allocation := sum_or0 (map Row.allocation (emitted outcome));
            Summary.allocationAmount :=
              sum_or0 (map Row.allocationAmount (emitted outcome));
            Summary.base := sum_or0 (map Row.base (emitted outcome));
            Summary.reward := sum_or0 (map Row.reward (emitted outcome));
            Summary.strategy := sum_or0 (map Row.strategy (emitted outcome));
            Summary.boosted := sum_or0 (map Row.boosted (emitted outcome));
            Summary.weighted := calculatedAPY outcome |}.
Proof.
  unfold strategySummary. f_equal.
  rewrite calculatedAPY_emitted, <- !field_sum_emitted.
  generalize 0%float at 1 8 as a1. generalize 0%float at 1 7 as a2.
  generalize 0%float at 1 6 as a3. generalize 0%float at 1 5 as a4.
  generalize 0%float at 1 4 as a5. generalize 0%float at 1 3 as a6.
  generalize 0%float as a7.
  induction outcome as [ | item l IH]; intros a7 a6 a5 a4 a3 a2 a1;
    cbn [fold_left]; [ reflexivity | ].
  cbn [Summary.allocation Summary.allocationAmount Summary.base Summary.reward
       Summary.strategy Summary.boosted Summary.weighted].
  apply IH.
Qed.

Section StrategyTableBody.

Variable toFixed : number -> nat -> string.
Variable toCurrency : number -> string.

Lemma strategyRow_throws_iff (item : option Row.t) :
  strategyRow toFixed toCurrency item = Throw TypeError <-> item = None.
Proof.
  unfold strategyRow. destruct item; cbn [expect bind];
    split; intros H; (discriminate H || reflexivity).
Qed.

Lemma strategyRows_throw_on_null (outcome : list (option Row.t)) :
  In None outcome -> strategyRows toFixed toCurrency outcome = Throw TypeError.
Proof.
  intros H. apply mapM_Throw_iff. exists None. split; [ exact H | reflexivity ].
Qed.

(** X18.  The body of the strategy table throws exactly when the outcome
    holds a [null]: destructuring the item is the only step of the callback
    that can fail, and a row with NaN figures or no name is still drawn. *)
Theorem strategyRows_throws_iff (outcome : list (option Row.t)) :
  strategyRows toFixed toCurrency outcome = Throw TypeError
  <-> In None outcome.
Proof.
  split; [ | apply strategyRows_throw_on_null ].
  intros H. apply mapM_Throw_iff in H. destruct H as (item & Hin & Hi).
  apply strategyRow_throws_iff in Hi. subst item. exact Hin.
Qed.

(** X19.  A catalog entry without a snapshot entry or without a quote, which
    the projection answers with a [null] in the outcome, makes the body of
    the strategy table throw on the data of that same projection. *)
Theorem missing_data_breaks_the_strategy_table (allocs : allocations)
    (boost : number) (details : Details.t) (apys : Obj.t Quote.t)
    (d : Data.t) (e : Entry.t) :
  project allocs boost details apys = Return d ->
  In e strategies ->
  Obj.get (Details.ousdStrategies details) (Entry.strategyId e) = None
  \/ Obj.get apys (Entry.apy e) = None ->
  strategyRows toFixed toCurrency (Data.outcome d) = Throw TypeError.
Proof.
  intros Hd He Hmiss. apply strategyRows_throw_on_null.
  apply project_of_Forall2 in Hd.
  assert (G : forall es items,
            Forall2 (fun e item =>
                       outcome_entry allocs boost details apys e = Return item)
              es items ->
            In e es -> In None items).
  { induction 1 as [ | e0 i0 es items HR _ IH]; cbn [In]; [ tauto | ].
    intros [-> | Hin]; [ left | right; apply IH; exact Hin ].
    assert (Hn : outcome_entry allocs boost details apys e = Return None).
    { unfold outcome_entry. destruct Hmiss as [-> | Hq]; [ reflexivity | ].
      rewrite Hq.
      destruct (Obj.get (Details.ousdStrategies details) (Entry.strategyId e));
        reflexivity. }
    rewrite Hn in HR. inversion HR. reflexivity. }
  apply (G strategies); assumption.
Qed.

End StrategyTableBody.

Lemma missing_data_breaks_the_strategy_table_witness :
  strategyRows (fun _ _ => "") (fun _ => "") (Data.outcome sample_data)
  = Throw TypeError.
Proof.
  apply (missing_data_breaks_the_strategy_table (fun _ _ => "") (fun _ => "")
           Sample.seeded 2%float Sample.details Sample.apys sample_data
           {| Entry.strategyId := "morpho_aave_strat";
              Entry.token := Single "USDT";
              Entry.apy := "morphoAaveUSDT" |}).
  - vm_compute. reflexivity.
  - cbn. tauto.
  - right. vm_compute. reflexivity.
Defined.

(** ** [AllocationsTable] *)








(** ** A whole cycle *)

Lemma baseline_rows (details : Details.t) (seeded : allocations) :
  baseline details = Return seeded ->
  forall t, In t stables -> exists row, Obj.get seeded t = Some row.
Proof.
  unfold baseline. intros E.
  apply bind_Return_inv in E. destruct E as (hs & _ & E).
  inversion E; subst seeded. clear E.
  intros t [<- | [<- | [<- | []]]]; eexists; reflexivity.
Qed.

(** X22.  Once the snapshot has been fetched and the matrix seeded from it,
    the projection over the seeded matrix returns, whatever the quotes and
    the boost, as soon as each of the three stablecoins is held by some
    strategy; it then has one entry per catalog entry. *)
Theorem seeded_projection_returns (fetched : snapshot) (details : Details.t)
    (seeded : allocations) (boost : number) (apys : Obj.t Quote.t) :
  fetchOUSDDetails fetched = Return details ->
  baseline details = Return seeded ->
  (forall t, In t stables -> Obj.get (Details.totalHoldings details) t <> None) ->
  exists d,
    project seeded boost details apys = Return d
    /\ List.length (Data.outcome d) = List.length strategies.
Proof.
  intros Ef Eb Hheld.
  apply fetchOUSDDetails_inv in Ef. destruct Ef as (_ & _ & _ & Hsum).
  assert (Hc : complete seeded details).
  { intros t Ht. split; [ apply (baseline_rows details); assumption | ].
    rewrite (Hsum t Ht).
    destruct (Obj.get (Details.totalHoldings details) t) as [x | ] eqn:Ex;
      [ eauto | ].
    exfalso. apply (Hheld t Ht). exact Ex. }
  destruct (project_returns seeded boost details apys Hc) as [d Hd].
  exists d. split; [ exact Hd | ].
  apply project_of_Forall2 in Hd. symmetry.
  induction Hd as [ | e i es items _ _ IH]; cbn [List.length]; congruence.
Qed.

Lemma seeded_projection_returns_witness :
  exists d,
    project Sample.seeded 2%float Sample.details Sample.apys = Return d
    /\ List.length (Data.outcome d) = List.length strategies.
Proof.
  apply (seeded_projection_returns Sample.fetched Sample.details Sample.seeded
           2%float Sample.apys).
  - vm_compute. reflexivity.
  - vm_compute. reflexivity.
  - intros t [<- | [<- | [<- | []]]]; vm_compute; discriminate.
Defined.
